(** * The Hetzner Cloud driver of docker-machine (drivers/hcloud/hcloud.go)

    A shallow embedding of the driver's lifecycle operations.  The driver is
    a Go struct mutated through its pointer receiver; every operation talks
    to the cloud provider through the hcloud-go client.  Here an operation is
    a function on a [World]: the driver's fields together with the trace of
    provider calls and log lines made so far.  The provider is an oracle that
    answers a request from the trace that precedes it, so successive answers
    may differ (a server found now may be gone after a delete).

    Go pointers are [option]s: dereferencing [None] is a run-time panic, and
    receiving from a channel on which nothing is ever sent blocks for ever.
    Both are outcomes of their own, next to a normal return.

    Of the client library this much is modelled: a method that is handed a
    [*Server] dereferences it, so a nil server panics inside the client
    before anything is sent; any other call joins the trace and gives the
    provider's answer.  The statements are about calls that return: a call
    that never returns (all of them run under [context.TODO()], with no
    deadline) is not among the outcomes, the wait on an action's error
    channel apart. *)

From Stdlib Require Import ZArith NArith String Ascii List Bool DecimalString Lia.
From Stdlib.Strings Require Import Byte.
Import ListNotations.

Local Open Scope string_scope.
Local Open Scope list_scope.

(** ** Go's [error] values

    The errors the driver can hold: the ones it makes with [fmt.Errorf], the
    host framework's [ErrHostIsNotRunning], the provider's API errors
    ([hcloud.Error], a code and a message) and any other failure of a call
    (transport). A nil [error] is [None] of [option error]. *)

Definition ErrorCode := string.

Inductive error : Type :=
| fmt_Errorf (msg : string)
| ErrHostIsNotRunning
| hcloud_Error (Code : ErrorCode) (Message : string)
| transport_error (msg : string).

(** ** Package net: an address is a byte slice. *)
Module net.

Definition IP := list byte.

End net.

(** ** Package libmachine/state

    Modelled from the spec: libmachine/state is not among the sources; the
    spec gives the abstract lifecycle state as the closed enumeration
    Running, Stopped, Starting, Stopping, Error. *)
Module state.

Inductive State : Type := Running | Stopped | Starting | Stopping | Error.

End state.

(** ** Package hcloud (hcloud-go): the data the driver exchanges with it

    Only the fields the driver reads or writes are kept.  Resources the
    driver merely hands back to the provider keep an ID and a name. *)
Module hcloud.

Definition ServerStatus := string.

Record ServerType := { ServerType_ID : Z; ServerType_Name : string }.
Record Image := { Image_ID : Z; Image_Name : string }.
Record Datacenter := { Datacenter_ID : Z; Datacenter_Name : string }.
Record Location := { Location_ID : Z; Location_Name : string }.

(** [Server.PublicNet.IPv4.IP] is reached through struct values, not
    pointers: it cannot fail once the server pointer itself is not nil. *)
Record Server := {
  Server_ID : Z;
  Server_Status : ServerStatus;
  Server_PublicNet_IPv4_IP : net.IP
}.

Record Action := { Action_ID : Z; Action_Command : string }.

Record ServerCreateOpts := {
  Opts_Name : string;
  Opts_ServerType : option ServerType;
  Opts_Image : option Image;
  Opts_Location : option Location;
  Opts_Datacenter : option Datacenter
}.

(** [opts.Datacenter = datacenter] and [opts.Location = location]. *)
Definition with_Datacenter (opts : ServerCreateOpts) (datacenter : option Datacenter)
    : ServerCreateOpts :=
  {| Opts_Name := Opts_Name opts;
     Opts_ServerType := Opts_ServerType opts;
     Opts_Image := Opts_Image opts;
     Opts_Location := Opts_Location opts;
     Opts_Datacenter := datacenter |}.

Definition with_Location (opts : ServerCreateOpts) (location : option Location)
    : ServerCreateOpts :=
  {| Opts_Name := Opts_Name opts;
     Opts_ServerType := Opts_ServerType opts;
     Opts_Image := Opts_Image opts;
     Opts_Location := location;
     Opts_Datacenter := Opts_Datacenter opts |}.

Record ServerCreateResult := {
  Result_Server : option Server;
  Result_Action : option Action
}.

(** [hcloud.NewClient(hcloud.WithToken(t), hcloud.WithApplication(n, v))]. *)
Record Client := {
  Client_token : string;
  Client_applicationName : string;
  Client_applicationVersion : string
}.

Definition NewClient (token name version : string) : Client :=
  {| Client_token := token;
     Client_applicationName := name;
     Client_applicationVersion := version |}.

(** [hcloud.IsError(err, code)]: the error is an API error with that code. *)
Definition IsError (err : error) (code : ErrorCode) : bool :=
  match err with
  | hcloud_Error c _ => String.eqb c code
  | _ => false
  end.

(** The calls the driver makes, named as the client's methods.  The five
    that act on a server take the [*Server] a lookup returned. *)
Inductive Request : Type :=
| ServerType_Get (idOrName : string)
| Image_Get (idOrName : string)
| Datacenter_Get (idOrName : string)
| Location_Get (idOrName : string)
| Server_Create (opts : ServerCreateOpts)
| Server_GetByID (id : Z)
| Server_Poweron (server : option Server)
| Server_Poweroff (server : option Server)
| Server_Shutdown (server : option Server)
| Server_Reboot (server : option Server)
| Server_Delete (server : option Server)
| Action_WatchProgress (action : Action).

(** hcloud-go is not among the sources.  Its [Server.Poweron], [Poweroff],
    [Shutdown], [Reboot] and [Delete] build the path of their request from
    [server.ID]: handed a nil server they dereference it, before anything is
    sent. *)
Definition nil_server (rq : Request) : bool :=
  match rq with
  | Server_Poweron None | Server_Poweroff None | Server_Shutdown None
  | Server_Reboot None | Server_Delete None => true
  | _ => false
  end.

(** What each call gives back, the [*Response] value apart (the driver
    drops it everywhere).  [Action_WatchProgress] stands for the call and the
    receive on its error channel: [None] when nothing is ever delivered,
    [Some err] for the terminal signal. *)
Definition Response (rq : Request) : Type :=
  match rq with
  | ServerType_Get _ => (option ServerType * option error)%type
  | Image_Get _ => (option Image * option error)%type
  | Datacenter_Get _ => (option Datacenter * option error)%type
  | Location_Get _ => (option Location * option error)%type
  | Server_Create _ => (ServerCreateResult * option error)%type
  | Server_GetByID _ => (option Server * option error)%type
  | Server_Poweron _ | Server_Poweroff _ | Server_Shutdown _ | Server_Reboot _ =>
      (option Action * option error)%type
  | Server_Delete _ => option error
  | Action_WatchProgress _ => option (option error)
  end.

End hcloud.

(** ** Package libmachine/drivers: the base driver

    Modelled from the spec: libmachine/drivers is not among the sources.  Of
    [BaseDriver] the spec names the machine name (identity) and the cached
    public address (network identity); [StorePath] is set by [NewDriver]. *)
Module drivers.

Record BaseDriver := {
  MachineName : string;
  StorePath : string;
  IPAddress : string
}.

End drivers.

(** ** The driver (hcloud.go, lines 22-30)

    [NewDriver] always allocates the embedded [*drivers.BaseDriver], so it is
    kept by value; [hcloud] is nil until [SetConfigFromFlags] succeeds. *)
Record Driver := {
  BaseDriver : drivers.BaseDriver;
  serverId : Z;
  Image : string;
  Location : string;
  Datacenter : string;
  ServerType : string;
  hcloud : option hcloud.Client
}.

(** Lines 49-56: every field but the two given ones has Go's zero value. *)
Definition NewDriver (hostName storePath : string) : Driver :=
  {| BaseDriver := {| drivers.MachineName := hostName;
                      drivers.StorePath := storePath;
                      drivers.IPAddress := "" |};
     serverId := 0;
     Image := "";
     Location := "";
     Datacenter := "";
     ServerType := "";
     hcloud := None |}.

(** ** Package libmachine/mcnflag: a string option of the command line

    Modelled from the spec: libmachine/mcnflag is not among the sources; the
    spec has each declared option carry a name, a default value and an
    environment variable.  [Usage] is the help text the driver gives. *)
Module mcnflag.

Record StringFlag := {
  EnvVar : string;
  Name : string;
  Usage : string;
  Value : string
}.

End mcnflag.

(** Lines 16-20. *)
Definition driverName : string := "hcloud".
Definition defaultImage : string := "ubuntu-18.04".
Definition defaultServerType : string := "cx11".

(** Lines 58-88.  A field the literal leaves out has Go's zero value. *)
Definition GetCreateFlags : list mcnflag.StringFlag :=
  [ {| mcnflag.EnvVar := "HCLOUD_TOKEN";
       mcnflag.Name := "hcloud-token";
       mcnflag.Usage := "URL of host when no driver is selected";
       mcnflag.Value := "" |};
    {| mcnflag.EnvVar := "HCLOUD_IMAGE";
       mcnflag.Name := "hcloud-image";
       mcnflag.Usage := "URL of host when no driver is selected";
       mcnflag.Value := defaultImage |};
    {| mcnflag.EnvVar := "HCLOUD_TYPE";
       mcnflag.Name := "hcloud-type";
       mcnflag.Usage := "URL of host when no driver is selected";
       mcnflag.Value := defaultServerType |};
    {| mcnflag.EnvVar := "HCLOUD_LOCATION";
       mcnflag.Name := "hcloud-location";
       mcnflag.Usage := "URL of host when no driver is selected";
       mcnflag.Value := "" |};
    {| mcnflag.EnvVar := "HCLOUD_DATACENTER";
       mcnflag.Name := "hcloud-datacenter";
       mcnflag.Usage := "URL of host when no driver is selected";
       mcnflag.Value := "" |} ].

(** Lines 126-129. *)
Definition DriverName : string := driverName.

(** ** Worlds, traces and the provider *)

Inductive LogLine : Type :=
| log_waiting (command : string)      (* "HCloud waiting for %q action to complete..." *)
| log_succeeded (command : string)    (* "HCloud %q action succeeded" *)
| log_not_exists.                     (* "HCloud server does not exists." *)

Inductive Event : Type :=
| Call (c : hcloud.Client) (rq : hcloud.Request)
| Log (l : LogLine).

Definition Trace := list Event.

(** The provider answers a request made through a client after a trace. *)
Definition Provider := Trace -> hcloud.Client -> forall rq : hcloud.Request, hcloud.Response rq.

Record World := { drv : Driver; trace : Trace }.

Definition with_trace (w : World) (t : Trace) : World :=
  {| drv := drv w; trace := t |}.

Definition with_drv (w : World) (d : Driver) : World :=
  {| drv := d; trace := trace w |}.

(** ** The monad of driver code *)

Inductive Outcome (A : Type) : Type :=
| Returned (a : A)
| Panicked
| Blocked.

Arguments Returned {A} a.
Arguments Panicked {A}.
Arguments Blocked {A}.

Definition M (A : Type) : Type := World -> Outcome A * World.

Definition ret {A} (a : A) : M A := fun w => (Returned a, w).

Definition bind {A B} (m : M A) (k : A -> M B) : M B :=
  fun w =>
    match m w with
    | (Returned a, w') => k a w'
    | (Panicked, w') => (Panicked, w')
    | (Blocked, w') => (Blocked, w')
    end.

Declare Scope go_scope.
Delimit Scope go_scope with go.

Notation "x <- m ;; k" := (bind m (fun x => k))
  (at level 100, m at next level, right associativity) : go_scope.
Notation "' pat <- m ;; k" := (bind m (fun x => match x with pat => k end))
  (at level 100, pat pattern, m at next level, right associativity) : go_scope.
Notation "m ;; k" := (bind m (fun _ => k))
  (at level 100, right associativity) : go_scope.

Local Open Scope go_scope.

(** A nil-pointer dereference. *)
Definition panic {A} : M A := fun w => (Panicked, w).

(** A receive that never completes. *)
Definition block {A} : M A := fun w => (Blocked, w).

(** [*p]: the value behind a pointer, or a panic. *)
Definition deref {A} (p : option A) : M A :=
  match p with
  | Some a => ret a
  | None => panic
  end.

(** The receiver [d]. *)
Definition this : M Driver := fun w => (Returned (drv w), w).

Definition store (f : Driver -> Driver) : M unit :=
  fun w => (Returned tt, with_drv w (f (drv w))).

Definition emit (e : Event) : M unit :=
  fun w => (Returned tt, with_trace w (trace w ++ [e])).

Definition log_Printf (l : LogLine) : M unit := emit (Log l).

(** Field assignments through the receiver. *)
Definition set_serverId (id : Z) (d : Driver) : Driver :=
  {| BaseDriver := BaseDriver d; serverId := id; Image := Image d;
     Location := Location d; Datacenter := Datacenter d;
     ServerType := ServerType d; hcloud := hcloud d |}.

Definition set_IPAddress (ip : string) (d : Driver) : Driver :=
  {| BaseDriver := {| drivers.MachineName := drivers.MachineName (BaseDriver d);
                      drivers.StorePath := drivers.StorePath (BaseDriver d);
                      drivers.IPAddress := ip |};
     serverId := serverId d; Image := Image d;
     Location := Location d; Datacenter := Datacenter d;
     ServerType := ServerType d; hcloud := hcloud d |}.

Definition set_Image (s : string) (d : Driver) : Driver :=
  {| BaseDriver := BaseDriver d; serverId := serverId d; Image := s;
     Location := Location d; Datacenter := Datacenter d;
     ServerType := ServerType d; hcloud := hcloud d |}.

Definition set_ServerType (s : string) (d : Driver) : Driver :=
  {| BaseDriver := BaseDriver d; serverId := serverId d; Image := Image d;
     Location := Location d; Datacenter := Datacenter d;
     ServerType := s; hcloud := hcloud d |}.

Definition set_Datacenter (s : string) (d : Driver) : Driver :=
  {| BaseDriver := BaseDriver d; serverId := serverId d; Image := Image d;
     Location := Location d; Datacenter := s;
     ServerType := ServerType d; hcloud := hcloud d |}.

Definition set_Location (s : string) (d : Driver) : Driver :=
  {| BaseDriver := BaseDriver d; serverId := serverId d; Image := Image d;
     Location := s; Datacenter := Datacenter d;
     ServerType := ServerType d; hcloud := hcloud d |}.

Definition set_hcloud (c : hcloud.Client) (d : Driver) : Driver :=
  {| BaseDriver := BaseDriver d; serverId := serverId d; Image := Image d;
     Location := Location d; Datacenter := Datacenter d;
     ServerType := ServerType d; hcloud := Some c |}.

(** ** Sample values

    Concrete providers and drivers on which the statements below are
    exercised.  The strings are the values hcloud-go gives its constants;
    nothing in the proofs depends on them beyond their being distinct. *)
Module Sample.

Definition running : hcloud.ServerStatus := "running".
Definition off : hcloud.ServerStatus := "off".
Definition stopping : hcloud.ServerStatus := "stopping".
Definition starting : hcloud.ServerStatus := "starting".
Definition initializing : hcloud.ServerStatus := "initializing".
Definition migrating : hcloud.ServerStatus := "migrating".
Definition not_found : ErrorCode := "not_found".
Definition version : string := "0.14.0".

(** Dotted decimal, as [net.IP.String] prints a four-byte address. *)
Definition IP_String (ip : net.IP) : string :=
  match ip with
  | [] => "<nil>"
  | _ => String.concat "." (map (fun b => NilEmpty.string_of_uint (N.to_uint (Byte.to_N b))) ip)
  end.

(** Modelled from the spec: [BaseDriver.GetIP] (libmachine/drivers) is not
    among the sources; the spec has it return the cached network identity. *)
Definition GetIP (b : drivers.BaseDriver) : string * option error :=
  (drivers.IPAddress b, None).

(** [net.JoinHostPort]: a host with a colon in it is bracketed. *)
Definition JoinHostPort (host port : string) : string :=
  if existsb (Ascii.eqb ":"%char) (list_ascii_of_string host)
  then ("[" ++ host ++ "]:" ++ port)%string
  else (host ++ ":" ++ port)%string.

Definition token_client : hcloud.Client :=
  hcloud.NewClient "T" "docker-machine" version.

Definition cx11 : hcloud.ServerType :=
  {| hcloud.ServerType_ID := 1; hcloud.ServerType_Name := "cx11" |}.

Definition ubuntu : hcloud.Image :=
  {| hcloud.Image_ID := 1; hcloud.Image_Name := "ubuntu-18.04" |}.

Definition fsn1_dc8 : hcloud.Datacenter :=
  {| hcloud.Datacenter_ID := 2; hcloud.Datacenter_Name := "fsn1-dc8" |}.

Definition fsn1 : hcloud.Location :=
  {| hcloud.Location_ID := 1; hcloud.Location_Name := "fsn1" |}.

(** A server at 203.0.113.9, the address of the spec's example scenario. *)
Definition server (id : Z) (status : hcloud.ServerStatus) : hcloud.Server :=
  {| hcloud.Server_ID := id;
     hcloud.Server_Status := status;
     hcloud.Server_PublicNet_IPv4_IP := [xcb; x00; x71; x09] |}.

Definition action (command : string) : hcloud.Action :=
  {| hcloud.Action_ID := 7; hcloud.Action_Command := command |}.

Definition name_taken : error :=
  hcloud_Error "uniqueness_error" "server name is already used".

Definition action_failed : error :=
  hcloud_Error "action_failed" "action failed".

Definition connection_refused : error :=
  transport_error "connection refused".

(** A delete call has been made. *)
Definition deleted (t : Trace) : bool :=
  existsb (fun e => match e with
                    | Call _ (hcloud.Server_Delete _) => true
                    | _ => false
                    end) t.

(** A cloud with one server.  Resources are found under their own names
    only, and a lookup by an unknown name gives nil with no error, as
    hcloud-go's [Get] does.  The server is found under its ID until a delete
    call has been made; the lookup of a server that does not exist gives nil
    with no error too, as hcloud-go's [GetByID] does.  [creation_error], when
    set, is what the creation call reports, with the zero
    [ServerCreateResult]; [signal] is what every watched action delivers. *)
Definition cloud (its : hcloud.Server) (creation_error : option error)
    (signal : option (option error)) : Provider :=
  fun t _ rq =>
    match rq return hcloud.Response rq with
    | hcloud.ServerType_Get k => (if k =? "cx11" then Some cx11 else None, None)
    | hcloud.Image_Get k => (if k =? "ubuntu-18.04" then Some ubuntu else None, None)
    | hcloud.Datacenter_Get k => (if k =? "fsn1-dc8" then Some fsn1_dc8 else None, None)
    | hcloud.Location_Get k => (if k =? "fsn1" then Some fsn1 else None, None)
    | hcloud.Server_Create _ =>
        match creation_error with
        | Some e => ({| hcloud.Result_Server := None; hcloud.Result_Action := None |}, Some e)
        | None => ({| hcloud.Result_Server := Some its;
                      hcloud.Result_Action := Some (action "create_server") |}, None)
        end
    | hcloud.Server_GetByID id =>
        if (id =? hcloud.Server_ID its)%Z && negb (deleted t)
        then (Some its, None)
        else (None, None)
    | hcloud.Server_Poweron _ => (Some (action "start_server"), None)
    | hcloud.Server_Poweroff _ => (Some (action "stop_server"), None)
    | hcloud.Server_Shutdown _ => (Some (action "shutdown_server"), None)
    | hcloud.Server_Reboot _ => (Some (action "reboot_server"), None)
    | hcloud.Server_Delete _ => None
    | hcloud.Action_WatchProgress _ => signal
    end.

(** The provider [base] for the first [n] events of a trace; after them the
    connection is gone and every call fails. *)
Definition failing_from (n : nat) (base : Provider) : Provider :=
  fun t c rq =>
    if (length t <? n)%nat then base t c rq
    else
      match rq return hcloud.Response rq with
      | hcloud.ServerType_Get _ => (None, Some connection_refused)
      | hcloud.Image_Get _ => (None, Some connection_refused)
      | hcloud.Datacenter_Get _ => (None, Some connection_refused)
      | hcloud.Location_Get _ => (None, Some connection_refused)
      | hcloud.Server_Create _ =>
          ({| hcloud.Result_Server := None; hcloud.Result_Action := None |},
           Some connection_refused)
      | hcloud.Server_GetByID _ => (None, Some connection_refused)
      | hcloud.Server_Poweron _ => (None, Some connection_refused)
      | hcloud.Server_Poweroff _ => (None, Some connection_refused)
      | hcloud.Server_Shutdown _ => (None, Some connection_refused)
      | hcloud.Server_Reboot _ => (None, Some connection_refused)
      | hcloud.Server_Delete _ => Some connection_refused
      | hcloud.Action_WatchProgress _ => Some (Some connection_refused)
      end.

(** The options of the spec's example scenario. *)
Definition flags (name : string) : string :=
  if name =? "hcloud-token" then "T"
  else if name =? "hcloud-image" then "ubuntu-18.04"
  else if name =? "hcloud-type" then "cx11"
  else "".

(** A driver fresh from [NewDriver], the same after configuration with
    [flags], and after a creation that gave it server 42. *)
Definition fresh : Driver := NewDriver "default" "/machines/default".

Definition configured : Driver :=
  set_hcloud token_client (set_ServerType "cx11" (set_Image "ubuntu-18.04" fresh)).

Definition created : Driver :=
  set_IPAddress "203.0.113.9" (set_serverId 42 configured).

(** A world in which nothing has happened yet. *)
Definition world (d : Driver) : World := {| drv := d; trace := [] |}.

End Sample.

(** ** The driver's operations

    What the driver takes from outside its own file is a variable of the
    section: the provider [P], Go's [net.IP.String] and [net.JoinHostPort],
    the base driver's [GetIP] (a method of [*drivers.BaseDriver], so what it
    returns is decided by the base driver's fields), libmachine's
    [version.Version], and the constants of hcloud-go the code names (five
    server statuses and the not-found error code). *)
Section Operations.

#[local] Set Default Proof Using "Type".

Variable P : Provider.
Variable IP_String : net.IP -> string.
Variable JoinHostPort : string -> string -> string.
Variable GetIP : drivers.BaseDriver -> string * option error.
Variable version_Version : string.
Variable ErrorCodeNotFound : ErrorCode.
Variable ServerStatusRunning : hcloud.ServerStatus.
Variable ServerStatusOff : hcloud.ServerStatus.
Variable ServerStatusStopping : hcloud.ServerStatus.
Variable ServerStatusStarting : hcloud.ServerStatus.
Variable ServerStatusInitializing : hcloud.ServerStatus.

(** A synchronous call on the client [c].  A call that is handed a nil
    server panics inside the client and nothing is sent; otherwise the
    provider answers from the trace so far, and the call joins the trace. *)
Definition call (c : hcloud.Client) (rq : hcloud.Request) : M (hcloud.Response rq) :=
  fun w =>
    if hcloud.nil_server rq then (Panicked, w)
    else (Returned (P (trace w) c rq), with_trace w (trace w ++ [Call c rq])).

(** [d.hcloud.X]: a field of the client behind the pointer [d.hcloud]. *)
Definition client : M hcloud.Client :=
  d <- this ;;
  deref (hcloud d).

(** [<-errCh]: the terminal signal, if one is ever delivered. *)
Definition receive {A} (delivered : option A) : M A :=
  match delivered with
  | Some v => ret v
  | None => block
  end.

(** Lines 237-245.  The arguments of the first [log.Printf] read
    [action.Command], so a nil action panics before anything is logged. *)
Definition waitOnAction (action : option hcloud.Action) : M (option error) :=
  a <- deref action ;;
  log_Printf (log_waiting (hcloud.Action_Command a)) ;;
  c <- client ;;
  errCh <- call c (hcloud.Action_WatchProgress a) ;;
  err <- receive errCh ;;
  match err with
  | Some e => ret (Some e)
  | None =>
      log_Printf (log_succeeded (hcloud.Action_Command a)) ;;
      ret None
  end.

(** Lines 91-118 of [Create]: the resources the new server is made of.
    [inl err] is an early [return err]; [inr opts] reaches line 119. *)
Definition Create_resolve : M (error + hcloud.ServerCreateOpts) :=
  d <- this ;;
  c <- client ;;
  '(serverType, err) <- call c (hcloud.ServerType_Get (ServerType d)) ;;
  match err with
  | Some e => ret (inl e)
  | None =>
  '(image, err) <- call c (hcloud.Image_Get (Image d)) ;;
  match err with
  | Some e => ret (inl e)
  | None =>
  let opts := {| hcloud.Opts_Name := drivers.MachineName (BaseDriver d);
                 hcloud.Opts_ServerType := serverType;
                 hcloud.Opts_Image := image;
                 hcloud.Opts_Location := None;
                 hcloud.Opts_Datacenter := None |} in
  r <- (if negb (Datacenter d =? "") then
          '(datacenter, err) <- call c (hcloud.Datacenter_Get (Image d)) ;;
          match err with
          | Some e => ret (inl e)
          | None => ret (inr (hcloud.with_Datacenter opts datacenter))
          end
        else ret (inr opts)) ;;
  match r with
  | inl e => ret (inl e)
  | inr opts =>
  if negb (Location d =? "") then
    '(location, err) <- call c (hcloud.Location_Get (Image d)) ;;
    match err with
    | Some e => ret (inl e)
    | None => ret (inr (hcloud.with_Location opts location))
    end
  else ret (inr opts)
  end
  end
  end.

(** Lines 119-123 of [Create]: the creation call, whose [err] is assigned
    and never read, the wait, whose result is dropped, and the two
    assignments. *)
Definition Create_submit (opts : hcloud.ServerCreateOpts) : M (option error) :=
  c <- client ;;
  '(resp, err) <- call c (hcloud.Server_Create opts) ;;
  waitOnAction (hcloud.Result_Action resp) ;;
  server <- deref (hcloud.Result_Server resp) ;;
  store (set_serverId (hcloud.Server_ID server)) ;;
  store (set_IPAddress (IP_String (hcloud.Server_PublicNet_IPv4_IP server))) ;;
  ret None.

(** Lines 90-124. *)
Definition Create : M (option error) :=
  r <- Create_resolve ;;
  match r with
  | inl err => ret (Some err)
  | inr opts => Create_submit opts
  end.

(** Lines 136-146, the [switch] on the server's status: the cases are tried
    in order, and a case either returns a state or, like the empty case of
    [ServerStatusStarting] (Go does not fall through) and like a status no
    case names, leaves the switch with nothing returned. *)
Definition GetState_switch (status : hcloud.ServerStatus) : option state.State :=
  if status =? ServerStatusRunning then Some state.Running
  else if status =? ServerStatusOff then Some state.Stopped
  else if status =? ServerStatusStopping then Some state.Stopping
  else if status =? ServerStatusStarting then None
  else if status =? ServerStatusInitializing then Some state.Starting
  else None.

(** Lines 131-148. *)
Definition GetState : M (state.State * option error) :=
  d <- this ;;
  c <- client ;;
  '(server, err) <- call c (hcloud.Server_GetByID (serverId d)) ;;
  match err with
  | Some e => ret (state.Error, Some e)
  | None =>
      s <- deref server ;;
      match GetState_switch (hcloud.Server_Status s) with
      | Some returned => ret (returned, None)
      | None => ret (state.Running, None)
      end
  end.

(** Lines 150-160. *)
Definition Kill : M (option error) :=
  d <- this ;;
  c <- client ;;
  '(server, err) <- call c (hcloud.Server_GetByID (serverId d)) ;;
  match err with
  | Some e => ret (Some e)
  | None =>
      '(action, err) <- call c (hcloud.Server_Poweroff server) ;;
      match err with
      | Some e => ret (Some e)
      | None => waitOnAction action
      end
  end.

(** Lines 162-173. *)
Definition Remove : M (option error) :=
  d <- this ;;
  c <- client ;;
  '(server, err) <- call c (hcloud.Server_GetByID (serverId d)) ;;
  match err with
  | Some e =>
      if hcloud.IsError e ErrorCodeNotFound then
        log_Printf log_not_exists ;;
        ret None
      else ret (Some e)
  | None =>
      err <- call c (hcloud.Server_Delete server) ;;
      ret err
  end.

(** Lines 175-185. *)
Definition Restart : M (option error) :=
  d <- this ;;
  c <- client ;;
  '(server, err) <- call c (hcloud.Server_GetByID (serverId d)) ;;
  match err with
  | Some e => ret (Some e)
  | None =>
      '(action, err) <- call c (hcloud.Server_Reboot server) ;;
      match err with
      | Some e => ret (Some e)
      | None => waitOnAction action
      end
  end.

(** Lines 187-211.  [flags.String] reads a named option; the two optional
    ones are stored as they come, empty or not. *)
Definition SetConfigFromFlags (flags : string -> string) : M (option error) :=
  let token := flags "hcloud-token" in
  if token =? "" then ret (Some (fmt_Errorf "--hcloud-token option is required"))
  else
    let image := flags "hcloud-image" in
    if image =? "" then ret (Some (fmt_Errorf "--hcloud-image option is required"))
    else
      store (set_Image image) ;;
      let serverType := flags "hcloud-type" in
      if serverType =? "" then ret (Some (fmt_Errorf "--hcloud-type option is required"))
      else
        store (set_ServerType serverType) ;;
        store (set_Datacenter (flags "hcloud-datacenter")) ;;
        store (set_Location (flags "hcloud-location")) ;;
        store (set_hcloud (hcloud.NewClient token "docker-machine" version_Version)) ;;
        ret None.

(** Lines 213-223. *)
Definition Start : M (option error) :=
  d <- this ;;
  c <- client ;;
  '(server, err) <- call c (hcloud.Server_GetByID (serverId d)) ;;
  match err with
  | Some e => ret (Some e)
  | None =>
      '(action, err) <- call c (hcloud.Server_Poweron server) ;;
      match err with
      | Some e => ret (Some e)
      | None => waitOnAction action
      end
  end.

(** Lines 225-235. *)
Definition Stop : M (option error) :=
  d <- this ;;
  c <- client ;;
  '(server, err) <- call c (hcloud.Server_GetByID (serverId d)) ;;
  match err with
  | Some e => ret (Some e)
  | None =>
      '(action, err) <- call c (hcloud.Server_Shutdown server) ;;
      match err with
      | Some e => ret (Some e)
      | None => waitOnAction action
      end
  end.

(** [d.GetIP()], the method the driver has from its embedded base driver. *)
Definition BaseDriver_GetIP : M (string * option error) :=
  d <- this ;;
  ret (GetIP (BaseDriver d)).

(** Modelled from the spec: [drivers.MustBeRunning] (libmachine/drivers) is
    not among the sources; the spec has it require the abstract state, as
    the driver's own [GetState] reports it, to be Running. *)
Definition MustBeRunning (getState : M (state.State * option error)) : M (option error) :=
  '(s, err) <- getState ;;
  match err with
  | Some e => ret (Some e)
  | None =>
      match s with
      | state.Running => ret None
      | _ => ret (Some ErrHostIsNotRunning)
      end
  end.

(** Lines 32-34. *)
Definition GetSSHHostname : M (string * option error) := BaseDriver_GetIP.

(** Lines 36-47. *)
Definition GetURL : M (string * option error) :=
  err <- MustBeRunning GetState ;;
  match err with
  | Some e => ret ("", Some e)
  | None =>
      '(ip, err) <- BaseDriver_GetIP ;;
      match err with
      | Some e => ret ("", Some e)
      | None => ret (("tcp://" ++ JoinHostPort ip "2376")%string, None)
      end
  end.

(** ** Reading a run

    [trace_after w evs] is [w] once the events [evs] have joined its trace. *)
Definition trace_after (w : World) (evs : list Event) : World :=
  with_trace w (trace w ++ evs).

(** The lookup every operation but [Create] starts with. *)
Definition lookup (c : hcloud.Client) (w : World) : Event :=
  Call c (hcloud.Server_GetByID (serverId (drv w))).





(** The lifecycle operations, each run for the error it returns. *)
Inductive Operation : Type :=
| DoCreate | DoStart | DoStop | DoRestart | DoKill | DoRemove | DoGetState
| DoGetURL | DoGetSSHHostname.

Definition run (o : Operation) : M (option error) :=
  match o with
  | DoCreate => Create
  | DoStart => Start
  | DoStop => Stop
  | DoRestart => Restart
  | DoKill => Kill
  | DoRemove => Remove
  | DoGetState => r <- GetState ;; ret (snd r)
  | DoGetURL => r <- GetURL ;; ret (snd r)
  | DoGetSSHHostname => r <- GetSSHHostname ;; ret (snd r)
  end.

(** The world an operation leaves, and how it comes back. *)
Definition after (o : Operation) (w : World) : World := snd (run o w).

Definition reported (o : Operation) (w : World) : Outcome (option error) :=
  fst (run o w).

(** The operations that begin by looking the server up by [serverId]. *)
Definition needs_identity : list Operation :=
  [DoStart; DoStop; DoRestart; DoKill; DoRemove; DoGetState].

(** [remove] alone takes a not-found lookup for success. *)
Definition forgiven (o : Operation) (e : error) : bool :=
  match o with
  | DoRemove => hcloud.IsError e ErrorCodeNotFound
  | _ => false
  end.

(** The error a synchronous call reports.  Watching an action is not such a
    call: what it delivers is the outcome of the action. *)
Definition failure (rq : hcloud.Request) : hcloud.Response rq -> option error :=
  match rq with
  | hcloud.ServerType_Get _ => fun r => snd r
  | hcloud.Image_Get _ => fun r => snd r
  | hcloud.Datacenter_Get _ => fun r => snd r
  | hcloud.Location_Get _ => fun r => snd r
  | hcloud.Server_Create _ => fun r => snd r
  | hcloud.Server_GetByID _ => fun r => snd r
  | hcloud.Server_Poweron _ => fun r => snd r
  | hcloud.Server_Poweroff _ => fun r => snd r
  | hcloud.Server_Shutdown _ => fun r => snd r
  | hcloud.Server_Reboot _ => fun r => snd r
  | hcloud.Server_Delete _ => fun r => r
  | hcloud.Action_WatchProgress _ => fun _ => None
  end.

(** The two failures that are not returned as they come: the one of the
    creation call, whose [err] is never read, and a not-found lookup in
    [remove]. *)
Definition exempt (o : Operation) (rq : hcloud.Request) (e : error) : bool :=
  match rq with
  | hcloud.Server_Create _ => true
  | hcloud.Server_GetByID _ => forgiven o e
  | _ => false
  end.

(** The statuses the [switch] of [GetState] names.  They are constants of
    one Go type used as the cases of one [switch], so they are distinct. *)
Definition named_statuses : list hcloud.ServerStatus :=
  [ServerStatusRunning; ServerStatusOff; ServerStatusStopping;
   ServerStatusStarting; ServerStatusInitializing].

(** A computation leaves the driver's fields alone. *)
Definition keeps_driver {A} (m : M A) : Prop :=
  forall w, drv (snd (m w)) = drv w.

(** A computation only adds to the trace. *)
Definition extends_trace {A} (m : M A) : Prop :=
  forall w, exists evs, trace (snd (m w)) = trace w ++ evs.

(** The names of the options [GetCreateFlags] declares. *)
Definition declared_names : list string := map mcnflag.Name GetCreateFlags.

(** The value an option has when it is not set: the default of the first
    flag declared under its name, and the empty string when there is none. *)
Fixpoint default_of (declared : list mcnflag.StringFlag) (name : string) : string :=
  match declared with
  | [] => ""
  | f :: rest => if name =? mcnflag.Name f then mcnflag.Value f else default_of rest name
  end.

(** Options with one of them set. *)
Definition with_option (name value : string) (flags : string -> string) : string -> string :=
  fun n => if n =? name then value else flags n.

(** The message of the error configuration gives for a missing option. *)
Definition required (name : string) : error :=
  fmt_Errorf ("--" ++ name ++ " option is required")%string.

(** The provider calls an operation may make. *)
Definition makes (o : Operation) (rq : hcloud.Request) : bool :=
  match o with
  | DoCreate =>
      match rq with
      | hcloud.ServerType_Get _ | hcloud.Image_Get _ | hcloud.Datacenter_Get _
      | hcloud.Location_Get _ | hcloud.Server_Create _
      | hcloud.Action_WatchProgress _ => true
      | _ => false
      end
  | DoStart =>
      match rq with
      | hcloud.Server_GetByID _ | hcloud.Server_Poweron _
      | hcloud.Action_WatchProgress _ => true
      | _ => false
      end
  | DoStop =>
      match rq with
      | hcloud.Server_GetByID _ | hcloud.Server_Shutdown _
      | hcloud.Action_WatchProgress _ => true
      | _ => false
      end
  | DoRestart =>
      match rq with
      | hcloud.Server_GetByID _ | hcloud.Server_Reboot _
      | hcloud.Action_WatchProgress _ => true
      | _ => false
      end
  | DoKill =>
      match rq with
      | hcloud.Server_GetByID _ | hcloud.Server_Poweroff _
      | hcloud.Action_WatchProgress _ => true
      | _ => false
      end
  | DoRemove =>
      match rq with
      | hcloud.Server_GetByID _ | hcloud.Server_Delete _ => true
      | _ => false
      end
  | DoGetState | DoGetURL =>
      match rq with
      | hcloud.Server_GetByID _ => true
      | _ => false
      end
  | DoGetSSHHostname => false
  end.

(** An answer without an error whose pointer is nil and is dereferenced
    next: the server of a lookup (by query-state and query-address
    themselves, and by the client in start, stop, restart, kill and remove,
    which hand it to their next call), the action of an action call (by the
    waiter), the action or the server of the creation call (whose error is
    not looked at). *)
Definition nil_answer (rq : hcloud.Request) : hcloud.Response rq -> bool :=
  match rq with
  | hcloud.Server_GetByID _ =>
      fun r =>
        match r with
        | (None, None) => true
        | _ => false
        end
  | hcloud.Server_Poweron _ | hcloud.Server_Poweroff _
  | hcloud.Server_Shutdown _ | hcloud.Server_Reboot _ =>
      fun r =>
        match r with
        | (None, None) => true
        | _ => false
        end
  | hcloud.Server_Create _ =>
      fun r =>
        match hcloud.Result_Action (fst r), hcloud.Result_Server (fst r) with
        | Some _, Some _ => false
        | _, _ => true
        end
  | _ => fun _ => false
  end.

(** ** Lemmas on the monad *)

Lemma bind_ret_l {A B} (a : A) (k : A -> M B) (w : World) :
  bind (ret a) k w = k a w.
Proof. reflexivity. Qed.

Lemma bind_Returned {A B} (m : M A) (k : A -> M B) (w w' : World) (a : A) :
  m w = (Returned a, w') -> bind m k w = k a w'.
Proof. intros H. unfold bind. rewrite H. reflexivity. Qed.

Lemma bind_Panicked {A B} (m : M A) (k : A -> M B) (w w' : World) :
  m w = (Panicked, w') -> bind m k w = (Panicked, w').
Proof. intros H. unfold bind. rewrite H. reflexivity. Qed.

Lemma bind_Blocked {A B} (m : M A) (k : A -> M B) (w w' : World) :
  m w = (Blocked, w') -> bind m k w = (Blocked, w').
Proof. intros H. unfold bind. rewrite H. reflexivity. Qed.

Lemma bind_assoc {A B C} (m : M A) (f : A -> M B) (g : B -> M C) (w : World) :
  bind (bind m f) g w = bind m (fun a => bind (f a) g) w.
Proof. unfold bind. destruct (m w) as [[a| |] w1]; reflexivity. Qed.

Lemma client_configured (w : World) (c : hcloud.Client) :
  hcloud (drv w) = Some c -> client w = (Returned c, w).
Proof. intros H. unfold client, bind, this, deref. rewrite H. reflexivity. Qed.

Lemma client_nil (w : World) :
  hcloud (drv w) = None -> client w = (Panicked, w).
Proof. intros H. unfold client, bind, this, deref. rewrite H. reflexivity. Qed.

Lemma with_trace_same (w : World) : with_trace w (trace w) = w.
Proof. destruct w; reflexivity. Qed.

Lemma trace_after_app (w : World) (e1 e2 : list Event) :
  trace_after (trace_after w e1) e2 = trace_after w (e1 ++ e2).
Proof. unfold trace_after, with_trace; cbn. now rewrite <- app_assoc. Qed.

Lemma call_runs (c : hcloud.Client) (rq : hcloud.Request) (w : World) :
  hcloud.nil_server rq = false ->
  call c rq w = (Returned (P (trace w) c rq), trace_after w [Call c rq]).
Proof. intros H. unfold call. rewrite H. reflexivity. Qed.

Lemma call_nil (c : hcloud.Client) (rq : hcloud.Request) (w : World) :
  hcloud.nil_server rq = true -> call c rq w = (Panicked, w).
Proof. intros H. unfold call. rewrite H. reflexivity. Qed.

(** A call that is not handed a nil server, followed by what is done with
    its answer. *)
Lemma bind_call {B} (c : hcloud.Client) (rq : hcloud.Request)
    (k : hcloud.Response rq -> M B) (w : World) :
  hcloud.nil_server rq = false ->
  bind (call c rq) k w = k (P (trace w) c rq) (trace_after w [Call c rq]).
Proof. intros H. apply bind_Returned. now apply call_runs. Qed.

Lemma bind_call_nil {B} (c : hcloud.Client) (rq : hcloud.Request)
    (k : hcloud.Response rq -> M B) (w : World) :
  hcloud.nil_server rq = true ->
  bind (call c rq) k w = (Panicked, w).
Proof. intros H. apply bind_Panicked. now apply call_nil. Qed.

(** ** The frame: what leaves the driver's fields alone *)

Create HintDb frame discriminated.

Lemma keeps_ret {A} (a : A) : keeps_driver (ret a).
Proof. intros w; reflexivity. Qed.

Lemma keeps_panic {A} : keeps_driver (@panic A).
Proof. intros w; reflexivity. Qed.

Lemma keeps_block {A} : keeps_driver (@block A).
Proof. intros w; reflexivity. Qed.

Lemma keeps_this : keeps_driver this.
Proof. intros w; reflexivity. Qed.

Lemma keeps_emit (e : Event) : keeps_driver (emit e).
Proof. intros w; reflexivity. Qed.

Lemma keeps_log_Printf (l : LogLine) : keeps_driver (log_Printf l).
Proof. intros w; reflexivity. Qed.

Lemma keeps_call (c : hcloud.Client) (rq : hcloud.Request) : keeps_driver (call c rq).
Proof. intros w; unfold call; destruct (hcloud.nil_server rq); reflexivity. Qed.

Lemma keeps_deref {A} (p : option A) : keeps_driver (deref p).
Proof. destruct p; intros w; reflexivity. Qed.

Lemma keeps_receive {A} (p : option A) : keeps_driver (receive p).
Proof. destruct p; intros w; reflexivity. Qed.

Lemma keeps_bind {A B} (m : M A) (k : A -> M B) :
  keeps_driver m -> (forall a, keeps_driver (k a)) -> keeps_driver (bind m k).
Proof.
  intros Hm Hk w. unfold bind.
  specialize (Hm w).
  destruct (m w) as [[a| |] w1]; cbn in *.
  - rewrite (Hk a w1). exact Hm.
  - exact Hm.
  - exact Hm.
Qed.

#[local] Hint Resolve keeps_ret keeps_panic keeps_block keeps_this keeps_emit
  keeps_log_Printf keeps_call keeps_deref keeps_receive : frame.

(** Splits a computation along its binds and case distinctions. *)
Ltac frame_step :=
  match goal with
  | |- keeps_driver (bind _ _) => apply keeps_bind; [ | intros ? ]
  | |- keeps_driver (match ?x with _ => _ end) => destruct x
  | |- keeps_driver (if ?b then _ else _) => destruct b
  | |- keeps_driver _ => solve [ auto with frame ]
  end.

Ltac frame := repeat frame_step.

Lemma keeps_client : keeps_driver client.
Proof. unfold client. frame. Qed.

#[local] Hint Resolve keeps_client : frame.

Lemma keeps_waitOnAction (action : option hcloud.Action) :
  keeps_driver (waitOnAction action).
Proof. unfold waitOnAction. frame. Qed.

#[local] Hint Resolve keeps_waitOnAction : frame.

Lemma keeps_Start : keeps_driver Start.
Proof. unfold Start. frame. Qed.

Lemma keeps_Stop : keeps_driver Stop.
Proof. unfold Stop. frame. Qed.

Lemma keeps_Restart : keeps_driver Restart.
Proof. unfold Restart. frame. Qed.

Lemma keeps_Kill : keeps_driver Kill.
Proof. unfold Kill. frame. Qed.

Lemma keeps_Remove : keeps_driver Remove.
Proof. unfold Remove. frame. Qed.

Lemma keeps_GetState : keeps_driver GetState.
Proof. unfold GetState. frame. Qed.

Lemma keeps_GetIP : keeps_driver BaseDriver_GetIP.
Proof. unfold BaseDriver_GetIP. frame. Qed.

#[local] Hint Resolve keeps_GetState : frame.

Lemma keeps_MustBeRunning (getState : M (state.State * option error)) :
  keeps_driver getState -> keeps_driver (MustBeRunning getState).
Proof. intros H. unfold MustBeRunning. frame. Qed.

Lemma keeps_GetURL : keeps_driver GetURL.
Proof.
  unfold GetURL. apply keeps_bind.
  - apply keeps_MustBeRunning, keeps_GetState.
  - intros err. frame.
Qed.

Lemma keeps_Create_resolve : keeps_driver Create_resolve.
Proof. unfold Create_resolve. frame. Qed.

Lemma keeps_after (o : Operation) (w : World) :
  o <> DoCreate -> drv (after o w) = drv w.
Proof.
  intros Ho. unfold after.
  assert (H : keeps_driver (run o)); [|apply H].
  destruct o; cbn [run]; try contradiction.
  - apply keeps_Start.
  - apply keeps_Stop.
  - apply keeps_Restart.
  - apply keeps_Kill.
  - apply keeps_Remove.
  - apply keeps_bind; [apply keeps_GetState | intros r; apply keeps_ret].
  - apply keeps_bind; [apply keeps_GetURL | intros r; apply keeps_ret].
  - apply keeps_bind; [apply keeps_GetIP | intros r; apply keeps_ret].
Qed.

(** Lines 119-123 either leave the driver as it was or end, with a nil
    error, having assigned both fields from one server. *)
Lemma Create_submit_binds_both (opts : hcloud.ServerCreateOpts) (w w' : World)
    (out : Outcome (option error)) :
  Create_submit opts w = (out, w') ->
  drv w' = drv w \/
  exists server,
    out = Returned None /\
    drv w' =
      set_IPAddress (IP_String (hcloud.Server_PublicNet_IPv4_IP server))
        (set_serverId (hcloud.Server_ID server) (drv w)).
Proof.
  unfold Create_submit.
  destruct (hcloud (drv w)) as [c|] eqn:Hc.
  - rewrite (bind_Returned _ _ _ _ _ (client_configured w c Hc)).
    rewrite bind_call by reflexivity.
    destruct (P (trace w) c (hcloud.Server_Create opts)) as [resp err].
    set (w1 := trace_after w _).
    pose proof (keeps_waitOnAction (hcloud.Result_Action resp) w1) as Hk.
    unfold bind at 1.
    destruct (waitOnAction (hcloud.Result_Action resp) w1) as [[r| |] w2]; cbn in Hk.
    + destruct (hcloud.Result_Server resp) as [server|]; cbn; intros [= <- <-].
      * right. exists server. split; [reflexivity|]. cbn. now rewrite Hk.
      * left. exact Hk.
    + intros [= <- <-]. left. exact Hk.
    + intros [= <- <-]. left. exact Hk.
  - rewrite (bind_Panicked _ _ _ _ (client_nil w Hc)). intros [= <- <-]. left. reflexivity.
Qed.

(** ** The trace is append-only *)

Create HintDb trace discriminated.

Lemma extends_ret {A} (a : A) : extends_trace (ret a).
Proof. intros w; exists []; cbn; now rewrite app_nil_r. Qed.

Lemma extends_panic {A} : extends_trace (@panic A).
Proof. intros w; exists []; cbn; now rewrite app_nil_r. Qed.

Lemma extends_block {A} : extends_trace (@block A).
Proof. intros w; exists []; cbn; now rewrite app_nil_r. Qed.

Lemma extends_this : extends_trace this.
Proof. intros w; exists []; cbn; now rewrite app_nil_r. Qed.

Lemma extends_store (f : Driver -> Driver) : extends_trace (store f).
Proof. intros w; exists []; cbn; now rewrite app_nil_r. Qed.

Lemma extends_emit (e : Event) : extends_trace (emit e).
Proof. intros w; exists [e]; reflexivity. Qed.

Lemma extends_log_Printf (l : LogLine) : extends_trace (log_Printf l).
Proof. apply extends_emit. Qed.

Lemma extends_call (c : hcloud.Client) (rq : hcloud.Request) : extends_trace (call c rq).
Proof.
  intros w; unfold call; destruct (hcloud.nil_server rq).
  - exists []; cbn; now rewrite app_nil_r.
  - exists [Call c rq]; reflexivity.
Qed.

Lemma extends_deref {A} (p : option A) : extends_trace (deref p).
Proof. destruct p; [apply extends_ret | apply extends_panic]. Qed.

Lemma extends_receive {A} (p : option A) : extends_trace (receive p).
Proof. destruct p; [apply extends_ret | apply extends_block]. Qed.

Lemma extends_bind {A B} (m : M A) (k : A -> M B) :
  extends_trace m -> (forall a, extends_trace (k a)) -> extends_trace (bind m k).
Proof.
  intros Hm Hk w. unfold bind.
  destruct (Hm w) as [e1 H1].
  destruct (m w) as [[a| |] w1]; cbn in *.
  - destruct (Hk a w1) as [e2 H2]. exists (e1 ++ e2).
    now rewrite H2, H1, app_assoc.
  - now exists e1.
  - now exists e1.
Qed.

#[local] Hint Resolve extends_ret extends_panic extends_block extends_this
  extends_store extends_emit extends_log_Printf extends_call extends_deref
  extends_receive : trace.

Ltac trace_step :=
  match goal with
  | |- extends_trace (bind _ _) => apply extends_bind; [ | intros ? ]
  | |- extends_trace (match ?x with _ => _ end) => destruct x
  | |- extends_trace (if ?b then _ else _) => destruct b
  | |- extends_trace _ => solve [ auto with trace ]
  end.

Ltac trace_grows := repeat trace_step.

Lemma extends_client : extends_trace client.
Proof. unfold client. trace_grows. Qed.

#[local] Hint Resolve extends_client : trace.

Lemma extends_waitOnAction (action : option hcloud.Action) :
  extends_trace (waitOnAction action).
Proof. unfold waitOnAction. trace_grows. Qed.

#[local] Hint Resolve extends_waitOnAction : trace.

(** ** The action waiter (lines 237-245) *)

(** With a client and an action in hand the waiter logs, watches, and ends
    as the terminal signal says; with no signal it never returns. *)
Lemma waitOnAction_runs (w : World) (c : hcloud.Client) (a : hcloud.Action) :
  hcloud (drv w) = Some c ->
  let cmd := hcloud.Action_Command a in
  let watch := Call c (hcloud.Action_WatchProgress a) in
  waitOnAction (Some a) w =
    match P (trace w ++ [Log (log_waiting cmd)]) c (hcloud.Action_WatchProgress a) with
    | None => (Blocked, trace_after w [Log (log_waiting cmd); watch])
    | Some (Some e) => (Returned (Some e), trace_after w [Log (log_waiting cmd); watch])
    | Some None =>
        (Returned None,
         trace_after w [Log (log_waiting cmd); watch; Log (log_succeeded cmd)])
    end.
Proof.
  intros Hc cmd watch. subst cmd watch.
  unfold waitOnAction, bind, deref, ret, log_Printf, emit, client, this, call, receive.
  cbn. rewrite Hc. cbn.
  destruct (P _ c (hcloud.Action_WatchProgress a)) as [[e|]|]; cbn;
    unfold trace_after, with_trace; cbn; now rewrite <- ?app_assoc.
Qed.

(** A nil action panics before anything is logged or asked. *)
Lemma waitOnAction_nil (w : World) : waitOnAction None w = (Panicked, w).
Proof. reflexivity. Qed.

(** ** Create *)

(** Once configured, lines 119-123 begin with the creation call on the
    options they are given. *)
Lemma Create_submit_calls (opts : hcloud.ServerCreateOpts) (w : World) (c : hcloud.Client) :
  hcloud (drv w) = Some c ->
  exists rest,
    trace (snd (Create_submit opts w)) = trace w ++ Call c (hcloud.Server_Create opts) :: rest.
Proof.
  intros Hc. unfold Create_submit.
  rewrite (bind_Returned _ _ _ _ _ (client_configured w c Hc)).
  rewrite bind_call by reflexivity.
  destruct (P (trace w) c (hcloud.Server_Create opts)) as [resp err].
  match goal with
  | |- context [snd (?k ?w1)] =>
      assert (Hk : extends_trace k) by trace_grows;
      destruct (Hk w1) as [rest Hrest]
  end.
  exists rest. rewrite Hrest. cbn. now rewrite <- app_assoc.
Qed.

(** Once create has reached the creation call nothing it returns is an
    error: what the call reports is never read again, and what the wait
    returns is dropped. *)
Lemma Create_returns_no_error_after_the_call (w w1 : World)
    (opts : hcloud.ServerCreateOpts) (e : error) :
  Create_resolve w = (Returned (inr opts), w1) ->
  fst (Create w) <> Returned (Some e).
Proof.
  intros Hres. unfold Create. rewrite (bind_Returned _ _ _ _ _ Hres).
  unfold Create_submit, bind.
  destruct (client w1) as [[c| |] w2]; cbn; try discriminate.
  destruct (P (trace w2) c (hcloud.Server_Create opts)) as [resp err].
  destruct (waitOnAction _ _) as [[r| |] w3]; cbn; try discriminate.
  destruct (hcloud.Result_Server resp); cbn; discriminate.
Qed.

(** C1: once the server-creation call of create has answered with a server
    and an action, the driver's [serverId] becomes that server's ID and its
    [IPAddress] the string of the server's public IPv4 address, and create
    returns a nil error: whatever error the call itself reported, and
    whatever the wait on the action returned, an error included. *)
Theorem Create_binds_identity (w w1 : World) (c : hcloud.Client)
    (opts : hcloud.ServerCreateOpts) (server : hcloud.Server) (action : hcloud.Action)
    (err signal : option error) :
  hcloud (drv w) = Some c ->
  Create_resolve w = (Returned (inr opts), w1) ->
  P (trace w1) c (hcloud.Server_Create opts) =
    ({| hcloud.Result_Server := Some server; hcloud.Result_Action := Some action |}, err) ->
  let creation := Call c (hcloud.Server_Create opts) in
  let waiting := Log (log_waiting (hcloud.Action_Command action)) in
  P (trace w1 ++ [creation; waiting]) c (hcloud.Action_WatchProgress action) = Some signal ->
  fst (waitOnAction (Some action) (trace_after w1 [creation])) = Returned signal /\
  fst (Create w) = Returned None /\
  serverId (drv (snd (Create w))) = hcloud.Server_ID server /\
  drivers.IPAddress (BaseDriver (drv (snd (Create w)))) =
    IP_String (hcloud.Server_PublicNet_IPv4_IP server).
Proof.
  intros Hc Hres Hcreate creation waiting Hwatch.
  assert (Hc1 : hcloud (drv (trace_after w1 [creation])) = Some c).
  { pose proof (keeps_Create_resolve w) as Hk. rewrite Hres in Hk. cbn in Hk.
    cbn. now rewrite Hk. }
  pose proof (waitOnAction_runs (trace_after w1 [creation]) c action Hc1) as Hwait.
  cbn zeta in Hwait. cbn [trace_after with_trace trace] in Hwait.
  rewrite <- app_assoc in Hwait. cbn [app] in Hwait.
  fold creation waiting in Hwait. rewrite Hwatch in Hwait.
  split.
  - rewrite Hwait. now destruct signal.
  - unfold Create. rewrite (bind_Returned _ _ _ _ _ Hres).
    unfold Create_submit.
    rewrite (bind_Returned _ _ _ _ _ (client_configured w1 c Hc1)).
    rewrite bind_call by reflexivity.
    rewrite Hcreate. cbn [hcloud.Result_Action hcloud.Result_Server].
    fold creation.
    destruct signal as [e|];
      rewrite (bind_Returned _ _ _ _ _ Hwait); cbn; repeat split.
Qed.

(** C6: in create, a configured datacenter is looked up with the image
    identifier as the key, and so is a configured location; what the two
    lookups resolve to is what the options of the server-creation call
    carry.  (Of every run that reaches that call.) *)
Theorem Create_looks_up_by_image (w w1 : World) (c : hcloud.Client)
    (opts : hcloud.ServerCreateOpts) :
  hcloud (drv w) = Some c ->
  Create_resolve w = (Returned (inr opts), w1) ->
  let d := drv w in
  let base := [Call c (hcloud.ServerType_Get (ServerType d));
               Call c (hcloud.Image_Get (Image d))] in
  let dcs := if Datacenter d =? "" then []
             else [Call c (hcloud.Datacenter_Get (Image d))] in
  let locs := if Location d =? "" then []
              else [Call c (hcloud.Location_Get (Image d))] in
  w1 = trace_after w (base ++ dcs ++ locs) /\
  (Datacenter d <> "" ->
   hcloud.Opts_Datacenter opts =
     fst (P (trace w ++ base) c (hcloud.Datacenter_Get (Image d)))) /\
  (Location d <> "" ->
   hcloud.Opts_Location opts =
     fst (P (trace w ++ base ++ dcs) c (hcloud.Location_Get (Image d)))) /\
  exists rest,
    trace (snd (Create w)) = trace w1 ++ Call c (hcloud.Server_Create opts) :: rest.
Proof.
  intros Hc Hres d base dcs locs.
  assert (Hc1 : hcloud (drv w1) = Some c).
  { pose proof (keeps_Create_resolve w) as Hk. rewrite Hres in Hk. cbn in Hk.
    now rewrite Hk. }
  assert (Hcreate : exists rest,
             trace (snd (Create w)) = trace w1 ++ Call c (hcloud.Server_Create opts) :: rest).
  { unfold Create. rewrite (bind_Returned _ _ _ _ _ Hres).
    now apply Create_submit_calls. }
  revert Hres. unfold Create_resolve.
  rewrite (bind_Returned this _ w w (drv w) eq_refl).
  rewrite (bind_Returned _ _ _ _ _ (client_configured w c Hc)).
  rewrite bind_call by reflexivity.
  fold d.
  destruct (P (trace w) c (hcloud.ServerType_Get (ServerType d))) as [serverType [e|]];
    [discriminate|].
  rewrite bind_call by reflexivity.
  rewrite trace_after_app. cbn [app]. fold base.
  destruct (P _ c (hcloud.Image_Get (Image d))) as [image [e|]]; [discriminate|].
  subst dcs locs.
  destruct (String.eqb_spec (Datacenter d) "") as [Ed|Nd]; cbn [negb].
  - rewrite bind_ret_l.
    destruct (String.eqb_spec (Location d) "") as [El|Nl]; cbn [negb].
    + intros [= <- <-]. rewrite app_nil_r. repeat split; try contradiction. exact Hcreate.
    + rewrite bind_call by reflexivity.
      rewrite trace_after_app. cbn [trace_after with_trace trace].
      rewrite app_nil_r.
      destruct (P (trace w ++ base) c (hcloud.Location_Get (Image d))) as [location [e|]];
        [discriminate|].
      intros [= <- <-]. repeat split; try contradiction. exact Hcreate.
  - rewrite bind_assoc.
    rewrite bind_call by reflexivity.
    rewrite trace_after_app. cbn [trace_after with_trace trace].
    destruct (P (trace w ++ base) c (hcloud.Datacenter_Get (Image d))) as [datacenter [e|]];
      [discriminate|].
    rewrite bind_ret_l.
    destruct (String.eqb_spec (Location d) "") as [El|Nl]; cbn [negb].
    + intros [= <- <-]. rewrite app_nil_r. repeat split; try contradiction. exact Hcreate.
    + rewrite bind_call by reflexivity.
      cbn [trace_after with_trace trace].
      destruct (P _ c (hcloud.Location_Get (Image d))) as [location [e|]];
        [discriminate|].
      intros [= <- <-]. repeat split; try contradiction.
      * unfold trace_after, with_trace. cbn. now rewrite <- !app_assoc.
      * exact Hcreate.
Qed.

(** ** GetState *)

(** C2: after a successful lookup, query-state maps Running to Running, Off
    to Stopped, Stopping to Stopping and Initializing to Starting; every
    status outside these four, the status Starting among them (it is matched
    and leaves the switch with no state), gives Running; the result is never
    Error and the error is nil. *)
Theorem GetState_maps_status (w : World) (c : hcloud.Client) (server : hcloud.Server) :
  NoDup named_statuses ->
  hcloud (drv w) = Some c ->
  P (trace w) c (hcloud.Server_GetByID (serverId (drv w))) = (Some server, None) ->
  let status := hcloud.Server_Status server in
  exists s : state.State,
    GetState w = (Returned (s, None), trace_after w [lookup c w]) /\
    (status = ServerStatusRunning -> s = state.Running) /\
    (status = ServerStatusOff -> s = state.Stopped) /\
    (status = ServerStatusStopping -> s = state.Stopping) /\
    (status = ServerStatusInitializing -> s = state.Starting) /\
    (status = ServerStatusStarting -> s = state.Running) /\
    (~ In status [ServerStatusRunning; ServerStatusOff; ServerStatusStopping;
                  ServerStatusInitializing] -> s = state.Running) /\
    s <> state.Error.
Proof.
  intros Hnd Hc Hlook status.
  assert (Hd : forall i j, (i < j < 5)%nat ->
               nth i named_statuses "" <> nth j named_statuses "").
  { intros i j Hij Heq.
    apply (proj1 (NoDup_nth named_statuses "") Hnd) in Heq; cbn; lia. }
  pose proof (Hd 0 1 ltac:(lia)) as H01. pose proof (Hd 0 2 ltac:(lia)) as H02.
  pose proof (Hd 0 3 ltac:(lia)) as H03. pose proof (Hd 0 4 ltac:(lia)) as H04.
  pose proof (Hd 1 2 ltac:(lia)) as H12. pose proof (Hd 1 3 ltac:(lia)) as H13.
  pose proof (Hd 1 4 ltac:(lia)) as H14. pose proof (Hd 2 3 ltac:(lia)) as H23.
  pose proof (Hd 2 4 ltac:(lia)) as H24. pose proof (Hd 3 4 ltac:(lia)) as H34.
  cbn in H01, H02, H03, H04, H12, H13, H14, H23, H24, H34. clear Hd.
  unfold GetState.
  rewrite (bind_Returned this _ w w (drv w) eq_refl).
  rewrite (bind_Returned _ _ _ _ _ (client_configured w c Hc)).
  rewrite bind_call by reflexivity.
  rewrite Hlook. cbn [deref]. rewrite bind_ret_l. fold status.
  unfold lookup, ret, GetState_switch.
  destruct (String.eqb_spec status ServerStatusRunning) as [E|N1];
    [ exists state.Running | destruct (String.eqb_spec status ServerStatusOff) as [E|N2];
    [ exists state.Stopped | destruct (String.eqb_spec status ServerStatusStopping) as [E|N3];
    [ exists state.Stopping | destruct (String.eqb_spec status ServerStatusStarting) as [E|N4];
    [ exists state.Running | destruct (String.eqb_spec status ServerStatusInitializing) as [E|N5];
    [ exists state.Starting | exists state.Running ] ] ] ] ];
    (split; [reflexivity|]);
    repeat split; try discriminate; intros Hn; try reflexivity;
    try congruence; exfalso; apply Hn; cbn; auto.
Qed.

(** ** Failures of provider calls *)

Lemma split_at_nil {A} (pre post : list A) (x : A) : [] = pre ++ x :: post -> False.
Proof. destruct pre; discriminate. Qed.

Lemma split_at_cons {A} (a x : A) (l pre post : list A) :
  a :: l = pre ++ x :: post ->
  (pre = [] /\ x = a /\ post = l) \/
  (exists pre', pre = a :: pre' /\ l = pre' ++ x :: post).
Proof.
  destruct pre as [|b pre']; cbn; intros [= -> ->].
  - left. repeat split.
  - right. exists pre'. split; reflexivity.
Qed.

(** Takes a finished run apart: every case distinction the run went through
    becomes an equation. *)
Ltac unfold_run H :=
  unfold Create, GetURL, GetSSHHostname in H;
  unfold Create_resolve, Create_submit, Start, Stop, Restart, Kill, Remove,
    MustBeRunning, GetState, BaseDriver_GetIP in H;
  unfold waitOnAction in H;
  unfold client, call, receive, deref, log_Printf, emit, store, this, panic, block,
    bind, ret in H;
  cbn in H;
  repeat match type of H with
         | context [match ?x with _ => _ end] =>
             lazymatch x with
             | context [match _ with _ => _ end] => fail
             | _ => destruct x eqn:?; cbn in H
             end
         end.

(** Finds the place of a call in the explicit list of a run's events. *)
Ltac locate H :=
  repeat match type of H with
         | [] = _ ++ _ :: _ => exfalso; exact (split_at_nil _ _ _ H)
         | _ :: _ = _ ++ _ :: _ =>
             apply split_at_cons in H;
             destruct H as [(? & ? & ?) | (? & ? & H)]
         end.

(** Closes one finished run: the failing call is found among its events,
    its answer is the one the run met there, and the run ended with it. *)
Ltac settle Hrun Htr Hfail Hex :=
  injection Hrun as <- <-;
  cbn [trace with_trace with_drv] in Htr;
  rewrite <- ?app_assoc in *; cbn [app] in *;
  first [ apply app_inv_head in Htr
        | rewrite <- (app_nil_r (trace _)) in Htr at 1; apply app_inv_head in Htr ];
  locate Htr; subst;
  match goal with
  | H : Call _ _ = Log _ |- _ => discriminate H
  | H : Call _ _ = Call _ _ |- _ => injection H as -> ->
  end;
  cbn [failure exempt forgiven] in Hfail, Hex;
  rewrite ?app_nil_r in Hfail; cbn [app] in Hfail;
  try discriminate Hex;
  try discriminate Hfail;
  first
    [ solve [ rewrite Hfail; split; reflexivity ]
    | match goal with
      | Heq : P ?t ?c ?rq = _, Hf : context [P ?t ?c ?rq] |- _ => rewrite Heq in Hf
      end;
      cbn [fst snd] in Hfail;
      try discriminate Hfail;
      injection Hfail as ->;
      try congruence;
      split; reflexivity ].

(** What the other calls do with a failure: in every lifecycle operation a
    synchronous provider call that reports a failure is the last thing the
    operation does, and the operation returns that very error; the creation
    call of create is left out, and so is remove's lookup when it reports
    not-found. *)
Lemma call_failures_are_returned (o : Operation) (w : World)
    (pre post : list Event) (c : hcloud.Client) (rq : hcloud.Request) (e : error) :
  trace (after o w) = trace w ++ pre ++ Call c rq :: post ->
  failure rq (P (trace w ++ pre) c rq) = Some e ->
  exempt o rq e = false ->
  reported o w = Returned (Some e) /\ post = [].
Proof.
  unfold after, reported.
  destruct (run o w) as [out w'] eqn:Hrun. cbn [fst snd].
  intros Htr Hfail Hex.
  destruct o; cbn [run] in Hrun; unfold_run Hrun; settle Hrun Htr Hfail Hex.
Qed.

(** C3: the failure of the server-creation call is not returned.  Line 119
    assigns the call's [err] and no line reads it, where every other call of
    the file is followed by [if err != nil { return err }].  So whatever
    error the creation call reports, create returns no error after it; and
    when the call comes back without an action (the zero result the client
    gives together with an error) create goes on to wait on the nil action
    and panics at [action.Command], the creation call being the last thing
    it asked. *)
Theorem creation_failure_is_not_returned (w w1 : World) (c : hcloud.Client)
    (opts : hcloud.ServerCreateOpts) (resp : hcloud.ServerCreateResult) (e : error) :
  hcloud (drv w) = Some c ->
  Create_resolve w = (Returned (inr opts), w1) ->
  P (trace w1) c (hcloud.Server_Create opts) = (resp, Some e) ->
  (forall e' : error, fst (Create w) <> Returned (Some e')) /\
  (hcloud.Result_Action resp = None ->
   Create w = (Panicked, trace_after w1 [Call c (hcloud.Server_Create opts)])).
Proof.
  intros Hc Hres Hcreate. split.
  - intros e'. exact (Create_returns_no_error_after_the_call w w1 opts e' Hres).
  - intros Hnil.
    assert (Hc1 : hcloud (drv w1) = Some c).
    { pose proof (keeps_Create_resolve w) as Hk. rewrite Hres in Hk. cbn in Hk.
      now rewrite Hk. }
    unfold Create. rewrite (bind_Returned _ _ _ _ _ Hres).
    unfold Create_submit.
    rewrite (bind_Returned _ _ _ _ _ (client_configured w1 c Hc1)).
    rewrite bind_call by reflexivity.
    rewrite Hcreate, Hnil.
    now rewrite (bind_Panicked _ _ _ _ (waitOnAction_nil _)).
Qed.

(** ** Operations on a machine that was never created *)

(** The first steps of every operation that looks the server up. *)
Ltac begin_lookup w c Hc :=
  rewrite ?bind_assoc;
  rewrite (bind_Returned this _ w w (drv w) eq_refl);
  rewrite ?bind_assoc;
  rewrite (bind_Returned _ _ _ _ _ (client_configured w c Hc));
  rewrite ?bind_assoc;
  rewrite bind_call by reflexivity.

(** What is left of a run extends the trace it starts from. *)
Ltac rest_extends :=
  match goal with
  | |- exists rest, trace (snd (?k ?w1)) = _ =>
      let Hk := fresh "Hk" in
      let rest := fresh "rest" in
      let Hrest := fresh "Hrest" in
      assert (Hk : extends_trace k) by trace_grows;
      destruct (Hk w1) as [rest Hrest];
      exists rest; etransitivity; [exact Hrest | cbn; now rewrite <- app_assoc]
  end.

(** C4, as the code has it: start, stop, restart, kill, remove and
    query-state make no check of the remote identity.  On a configured driver
    whose [serverId] is still 0 (create has not succeeded) each begins with
    the server lookup for ID 0; when that lookup reports an error the
    operation returns it, remove returning nil instead when the error is
    not-found. *)
Theorem unset_identity_is_looked_up (o : Operation) (w : World) (c : hcloud.Client) :
  In o needs_identity ->
  hcloud (drv w) = Some c ->
  serverId (drv w) = 0%Z ->
  (exists rest,
      trace (after o w) = trace w ++ Call c (hcloud.Server_GetByID 0) :: rest) /\
  (forall server e,
      P (trace w) c (hcloud.Server_GetByID 0) = (server, Some e) ->
      reported o w = Returned (if forgiven o e then None else Some e)).
Proof.
  intros Hin Hc Hid.
  destruct o; cbn in Hin;
    try (exfalso; repeat (destruct Hin as [Hin|Hin]; [discriminate Hin|]); exact Hin);
    clear Hin; unfold after, reported; cbn [run forgiven];
    unfold Start, Stop, Restart, Kill, Remove, GetState;
    begin_lookup w c Hc; rewrite Hid;
    (split;
     [ destruct (P (trace w) c (hcloud.Server_GetByID 0)) as [server [e|]]; rest_extends
     | intros server e Hlook; rewrite Hlook; try reflexivity ]).
  destruct (hcloud.IsError e ErrorCodeNotFound); reflexivity.
Qed.

(** ** Remove *)

(** How remove runs, by what its lookup answers: a not-found error is
    logged and nil returned, any other error is returned, a server is handed
    to one delete call whose error is the result, and a nil server with no
    error is handed to the delete call all the same, which panics inside the
    client. *)
Lemma Remove_runs (w : World) (c : hcloud.Client) :
  hcloud (drv w) = Some c ->
  match P (trace w) c (hcloud.Server_GetByID (serverId (drv w))) with
  | (_, Some e) =>
      if hcloud.IsError e ErrorCodeNotFound
      then Remove w = (Returned None, trace_after w [lookup c w; Log log_not_exists])
      else Remove w = (Returned (Some e), trace_after w [lookup c w])
  | (Some server, None) =>
      Remove w =
        (Returned (P (trace w ++ [lookup c w]) c (hcloud.Server_Delete (Some server))),
         trace_after w [lookup c w; Call c (hcloud.Server_Delete (Some server))])
  | (None, None) => Remove w = (Panicked, trace_after w [lookup c w])
  end.
Proof.
  intros Hc. unfold Remove.
  rewrite (bind_Returned this _ w w (drv w) eq_refl).
  rewrite (bind_Returned _ _ _ _ _ (client_configured w c Hc)).
  rewrite bind_call by reflexivity.
  unfold lookup.
  destruct (P (trace w) c (hcloud.Server_GetByID (serverId (drv w))))
    as [[server|] [e|]].
  - destruct (hcloud.IsError e ErrorCodeNotFound).
    + unfold bind, log_Printf, emit, ret, trace_after, with_trace; cbn.
      now rewrite <- app_assoc.
    + reflexivity.
  - rewrite bind_call by reflexivity.
    rewrite trace_after_app. reflexivity.
  - destruct (hcloud.IsError e ErrorCodeNotFound).
    + unfold bind, log_Printf, emit, ret, trace_after, with_trace; cbn.
      now rewrite <- app_assoc.
    + reflexivity.
  - now rewrite bind_call_nil by reflexivity.
Qed.

(** C5: remove is not idempotent.  The lookup of a server that does not
    exist (one that was removed before) comes back with a nil server and a
    nil error.  The not-found branch of lines 164-170 looks at the error
    only, so it is not taken: remove hands the nil server to the delete
    call, which panics inside the client.  No error and no nil is returned,
    nothing is logged, and no delete call reaches the provider. *)
Theorem Remove_of_a_missing_server_panics (w : World) (c : hcloud.Client) :
  hcloud (drv w) = Some c ->
  P (trace w) c (hcloud.Server_GetByID (serverId (drv w))) = (None, None) ->
  Remove w = (Panicked, trace_after w [lookup c w]).
Proof.
  intros Hc Hlook.
  pose proof (Remove_runs w c Hc) as H.
  rewrite Hlook in H. exact H.
Qed.

(** ** SetConfigFromFlags *)

(** C7: configure returns an error when the token, the image or the server
    type is the empty string, and then the driver's client is the one it had
    (none is constructed) and no call is made; when all three are given it
    binds image, server type, datacenter and location, constructs the client
    from the token, and returns no error. *)
Theorem SetConfigFromFlags_validates (flags : string -> string) (w : World) :
  let token := flags "hcloud-token" in
  let image := flags "hcloud-image" in
  let serverType := flags "hcloud-type" in
  (token = "" \/ image = "" \/ serverType = "" ->
   exists (msg : string) (w' : World),
     SetConfigFromFlags flags w = (Returned (Some (fmt_Errorf msg)), w') /\
     hcloud (drv w') = hcloud (drv w) /\
     trace w' = trace w) /\
  (token <> "" -> image <> "" -> serverType <> "" ->
   SetConfigFromFlags flags w =
     (Returned None,
      with_drv w
        {| BaseDriver := BaseDriver (drv w);
           serverId := serverId (drv w);
           Image := image;
           Location := flags "hcloud-location";
           Datacenter := flags "hcloud-datacenter";
           ServerType := serverType;
           hcloud := Some (hcloud.NewClient token "docker-machine" version_Version) |})).
Proof.
  intros token image serverType. unfold SetConfigFromFlags.
  fold token image serverType.
  destruct (String.eqb_spec token "") as [Et|Nt].
  - split; [intros _ | intros H; contradiction].
    exists "--hcloud-token option is required", w. repeat split.
  - destruct (String.eqb_spec image "") as [Ei|Ni].
    + split; [intros _ | intros _ H; contradiction].
      exists "--hcloud-image option is required", w. repeat split.
    + destruct (String.eqb_spec serverType "") as [Es|Ns].
      * split; [intros _ | intros _ _ H; contradiction].
        exists "--hcloud-type option is required", (with_drv w (set_Image image (drv w))).
        repeat split.
      * split; [intros [H|[H|H]]; contradiction | intros _ _ _; reflexivity].
Qed.

(** ** Start, Stop, Restart and Kill *)


(** ** GetURL and GetSSHHostname *)

(** C9, as the code has it: query-address (GetURL) applies the
    must-be-running guard first and fails with an error whenever the state
    the driver reports is not Running or could not be had; with the state
    Running it returns what [GetIP] gives for the cached network identity,
    as a URL with port 2376 (or [GetIP]'s error).  Query-ssh-hostname
    (GetSSHHostname) applies no guard: whatever the state, it returns what
    [GetIP] gives for the cached network identity, and asks the provider
    nothing. *)
Theorem GetURL_guards_GetSSHHostname_does_not (w : World) :
  (forall s err w',
      GetState w = (Returned (s, err), w') ->
      (s <> state.Running \/ err <> None ->
       exists e, GetURL w = (Returned ("", Some e), w')) /\
      (s = state.Running -> err = None ->
       GetURL w =
         (Returned
            match GetIP (BaseDriver (drv w)) with
            | (_, Some e) => ("", Some e)
            | (ip, None) => (("tcp://" ++ JoinHostPort ip "2376")%string, None)
            end, w'))) /\
  GetSSHHostname w = (Returned (GetIP (BaseDriver (drv w))), w).
Proof.
  split; [|reflexivity].
  intros s err w' Hst.
  assert (Hd : drv w' = drv w).
  { pose proof (keeps_GetState w) as Hk. now rewrite Hst in Hk. }
  unfold GetURL, MustBeRunning.
  rewrite bind_assoc. rewrite (bind_Returned _ _ _ _ _ Hst).
  split.
  - intros Hnot. destruct err as [e|].
    + exists e. reflexivity.
    + exists ErrHostIsNotRunning.
      destruct s; try reflexivity. destruct Hnot; congruence.
  - intros -> ->. unfold bind, ret, BaseDriver_GetIP, this. cbn. rewrite Hd.
    now destruct (GetIP (BaseDriver (drv w))) as [ip [e|]].
Qed.

(** ** What binds the identity *)

(** C10: no operation other than create (start, stop, restart, kill, remove,
    query-state, query-address, and query-ssh-hostname with them) changes the
    driver's remote identity [serverId] or its network identity [IPAddress],
    however the operation ends; create either leaves both as they were or
    sets both, from the same server. *)
Theorem identity_is_bound_by_Create_alone :
  (forall (o : Operation) (w : World),
      o <> DoCreate ->
      serverId (drv (after o w)) = serverId (drv w) /\
      drivers.IPAddress (BaseDriver (drv (after o w))) =
        drivers.IPAddress (BaseDriver (drv w))) /\
  (forall w : World,
      drv (after DoCreate w) = drv w \/
      exists server : hcloud.Server,
        drv (after DoCreate w) =
          set_IPAddress (IP_String (hcloud.Server_PublicNet_IPv4_IP server))
            (set_serverId (hcloud.Server_ID server) (drv w))).
Proof.
  split.
  - intros o w Ho. now rewrite keeps_after.
  - intros w. unfold after, run, Create, bind.
    pose proof (keeps_Create_resolve w) as Hr.
    destruct (Create_resolve w) as [[[e|opts]| |] w1]; cbn in Hr.
    + left. cbn. exact Hr.
    + destruct (Create_submit opts w1) as [out w2] eqn:Hrun.
      destruct (Create_submit_binds_both opts w1 w2 out Hrun) as [Hs|[server [_ Hs]]]; cbn.
      * left. now rewrite Hs, Hr.
      * right. exists server. now rewrite Hs, Hr.
    + left. cbn. exact Hr.
    + left. cbn. exact Hr.
Qed.

(** ** Further properties: configuration *)

(** X1: configuration reads the options [GetCreateFlags] declares and no
    other: options that agree on the declared names configure alike, and
    each declared option can change what configuration does. *)
Theorem SetConfigFromFlags_reads_the_declared_flags :
  (forall (f g : string -> string) (w : World),
      (forall n, In n declared_names -> f n = g n) ->
      SetConfigFromFlags f w = SetConfigFromFlags g w) /\
  (forall n, In n declared_names ->
      exists (f : string -> string) (v : string) (w : World),
        SetConfigFromFlags (with_option n v f) w <> SetConfigFromFlags f w).
Proof.
  split.
  - intros f g w H. unfold SetConfigFromFlags.
    rewrite <- (H "hcloud-token"), <- (H "hcloud-image"), <- (H "hcloud-type"),
      <- (H "hcloud-datacenter"), <- (H "hcloud-location");
      solve [ reflexivity | cbn; repeat (first [left; reflexivity | right]) ].
  - intros n Hn. exists (fun _ => "a"), "b", {| drv := NewDriver "" ""; trace := [] |}.
    cbn in Hn.
    repeat (destruct Hn as [<-|Hn]; [cbv; intros H; discriminate H|]).
    contradiction.
Qed.

(** X2: the defaults [GetCreateFlags] declares pass the checks of
    configuration once a token is given: the driver gets the default image
    and server type, no datacenter and no location; without a token the
    declared defaults are refused for the missing token. *)
Theorem declared_defaults_configure (token : string) (w : World) :
  token <> "" ->
  SetConfigFromFlags (with_option "hcloud-token" token (default_of GetCreateFlags)) w =
    (Returned None,
     with_drv w
       {| BaseDriver := BaseDriver (drv w);
          serverId := serverId (drv w);
          Image := defaultImage;
          Location := "";
          Datacenter := "";
          ServerType := defaultServerType;
          hcloud := Some (hcloud.NewClient token "docker-machine" version_Version) |}) /\
  SetConfigFromFlags (default_of GetCreateFlags) w =
    (Returned (Some (required "hcloud-token")), w).
Proof.
  intros Ht. split; [|reflexivity].
  unfold SetConfigFromFlags.
  change (with_option "hcloud-token" token (default_of GetCreateFlags) "hcloud-token")
    with token.
  destruct (String.eqb_spec token "") as [E|_]; [contradiction|].
  reflexivity.
Qed.

(** X3: a configuration that fails names the first missing option among
    token, image and server type, makes no call, and leaves the driver as it
    was, with one exception: a missing server type is found only after the
    image has been stored on the driver. *)
Theorem SetConfigFromFlags_failure (flags : string -> string) (w w' : World) (e : error) :
  SetConfigFromFlags flags w = (Returned (Some e), w') ->
  let token := flags "hcloud-token" in
  let image := flags "hcloud-image" in
  let serverType := flags "hcloud-type" in
  (token = "" /\ e = required "hcloud-token" /\ w' = w) \/
  (token <> "" /\ image = "" /\ e = required "hcloud-image" /\ w' = w) \/
  (token <> "" /\ image <> "" /\ serverType = "" /\ e = required "hcloud-type" /\
   w' = with_drv w (set_Image image (drv w))).
Proof.
  intros Hrun token image serverType. revert Hrun.
  unfold SetConfigFromFlags. fold token image serverType.
  destruct (String.eqb_spec token "") as [Et|Nt].
  - intros [= <- <-]. left. repeat split; assumption.
  - destruct (String.eqb_spec image "") as [Ei|Ni].
    + intros [= <- <-]. right; left. repeat split; assumption.
    + destruct (String.eqb_spec serverType "") as [Es|Ns].
      * intros [= <- <-]. right; right. repeat split; assumption.
      * intros [= ].
Qed.

(** X4: configuration is idempotent and keeps the identity: run again with
    the same options it returns the same and changes nothing more, and
    whatever it returns, [serverId], the base driver and the trace are as
    they were. *)
Theorem SetConfigFromFlags_again (flags : string -> string) (w : World) :
  let once := SetConfigFromFlags flags w in
  SetConfigFromFlags flags (snd once) = once /\
  serverId (drv (snd once)) = serverId (drv w) /\
  BaseDriver (drv (snd once)) = BaseDriver (drv w) /\
  trace (snd once) = trace w.
Proof.
  intros once. subst once. unfold SetConfigFromFlags.
  destruct (flags "hcloud-token" =? ""); [repeat split|].
  destruct (flags "hcloud-image" =? ""); [repeat split|].
  destruct (flags "hcloud-type" =? ""); repeat split.
Qed.

(** ** Further properties: the waiter, the state and the unconfigured driver *)

(** The waiter, on every input.  A nil action panics before anything is
    logged or asked; without a client it panics after the first log line;
    otherwise it logs, makes one watch call, and ends as the terminal signal
    says: that error, or nil after the second log line, or never when no
    signal is delivered. *)
Lemma waitOnAction_contract (action : option hcloud.Action) (w : World) :
  match action, hcloud (drv w) with
  | None, _ => waitOnAction action w = (Panicked, w)
  | Some a, None =>
      waitOnAction action w =
        (Panicked, trace_after w [Log (log_waiting (hcloud.Action_Command a))])
  | Some a, Some c =>
      let waiting := Log (log_waiting (hcloud.Action_Command a)) in
      let watch := Call c (hcloud.Action_WatchProgress a) in
      match P (trace w ++ [waiting]) c (hcloud.Action_WatchProgress a) with
      | None => waitOnAction action w = (Blocked, trace_after w [waiting; watch])
      | Some (Some e) =>
          waitOnAction action w = (Returned (Some e), trace_after w [waiting; watch])
      | Some None =>
          waitOnAction action w =
            (Returned None,
             trace_after w [waiting; watch; Log (log_succeeded (hcloud.Action_Command a))])
      end
  end.
Proof.
  destruct action as [a|]; [|destruct (hcloud (drv w)); reflexivity].
  destruct (hcloud (drv w)) as [c|] eqn:Hc.
  - pose proof (waitOnAction_runs w c a Hc) as H. cbn zeta in *.
    destruct (P _ c (hcloud.Action_WatchProgress a)) as [[e|]|]; exact H.
  - unfold waitOnAction, bind, deref, ret, log_Printf, emit, client, this. cbn.
    rewrite Hc. reflexivity.
Qed.

Lemma GetState_switch_never_Error (status : hcloud.ServerStatus) :
  GetState_switch status <> Some state.Error.
Proof.
  unfold GetState_switch.
  repeat match goal with
         | |- context [if ?b then _ else _] => destruct b
         end; discriminate.
Qed.

(** X5: query-state that returns gives the state Error exactly when it gives
    an error; the error is the one of the server lookup, its only call. *)
Theorem GetState_Error_means_error (w w' : World) (s : state.State) (err : option error) :
  GetState w = (Returned (s, err), w') ->
  (s = state.Error <-> err <> None) /\
  exists c,
    hcloud (drv w) = Some c /\
    w' = trace_after w [lookup c w] /\
    err = snd (P (trace w) c (hcloud.Server_GetByID (serverId (drv w)))).
Proof.
  intros Hrun. unfold GetState in Hrun.
  destruct (hcloud (drv w)) as [c|] eqn:Hc.
  - rewrite (bind_Returned this _ w w (drv w) eq_refl) in Hrun.
    rewrite (bind_Returned _ _ _ _ _ (client_configured w c Hc)) in Hrun.
    rewrite bind_call in Hrun by reflexivity.
    destruct (P (trace w) c (hcloud.Server_GetByID (serverId (drv w))))
      as [server [e|]] eqn:Hlook.
    + injection Hrun as <- <- <-. split.
      * split; [discriminate | reflexivity].
      * exists c. rewrite Hlook. repeat split.
    + destruct server as [sv|]; [|discriminate Hrun].
      cbn [deref] in Hrun. rewrite bind_ret_l in Hrun.
      pose proof (GetState_switch_never_Error (hcloud.Server_Status sv)) as Hne.
      destruct (GetState_switch (hcloud.Server_Status sv)) as [r|];
        injection Hrun as <- <- <-.
      * split; [split; [intros ->; contradiction | intros H; contradiction] |].
        exists c. rewrite Hlook. repeat split.
      * split; [split; [discriminate | intros H; contradiction] |].
        exists c. rewrite Hlook. repeat split.
  - rewrite (bind_Returned this _ w w (drv w) eq_refl) in Hrun.
    rewrite (bind_Panicked _ _ _ _ (client_nil w Hc)) in Hrun. discriminate Hrun.
Qed.

(** X6: on a driver that was never configured (its client is nil) create,
    start, stop, restart, kill, remove, query-state and query-address panic
    at once: nothing is asked, logged or changed. *)
Theorem unconfigured_driver_panics (o : Operation) (w : World) :
  hcloud (drv w) = None ->
  o <> DoGetSSHHostname ->
  run o w = (Panicked, w).
Proof.
  intros Hc Ho.
  destruct o; try contradiction; cbn [run];
    unfold Create, GetURL;
    unfold Create_resolve, Start, Stop, Restart, Kill, Remove, MustBeRunning, GetState;
    rewrite ?bind_assoc;
    rewrite (bind_Returned this _ w w (drv w) eq_refl);
    rewrite ?bind_assoc;
    now rewrite (bind_Panicked _ _ _ _ (client_nil w Hc)).
Qed.

(** ** Further properties: what a run is made of *)

(** Turns a finished run into the explicit list of its events. *)
Ltac events_of Hrun Htr :=
  injection Hrun as <- <-;
  cbn [trace with_trace with_drv] in Htr;
  rewrite <- ?app_assoc in *; cbn [app] in *;
  first [ apply app_inv_head in Htr
        | rewrite <- (app_nil_r (trace _)) in Htr at 1; apply app_inv_head in Htr ];
  subst.

(** X7: the provider calls of an operation.  Each operation makes calls of
    its own kinds only (query-state and query-address nothing but the server
    lookup, remove nothing but the lookup and the delete call, and so on),
    every call goes through the driver's client, and every server lookup is
    for the driver's [serverId]. *)
Theorem calls_of_an_operation (o : Operation) (w : World) (evs : list Event)
    (c : hcloud.Client) (rq : hcloud.Request) :
  trace (after o w) = trace w ++ evs ->
  In (Call c rq) evs ->
  makes o rq = true /\
  hcloud (drv w) = Some c /\
  (forall id, rq = hcloud.Server_GetByID id -> id = serverId (drv w)).
Proof.
  unfold after.
  destruct (run o w) as [out w'] eqn:Hrun. cbn [fst snd].
  intros Htr Hin.
  destruct o; cbn [run] in Hrun; unfold_run Hrun; events_of Hrun Htr;
    cbn [In] in Hin;
    repeat (destruct Hin as [Hin|Hin];
            [ first [ discriminate Hin
                    | injection Hin as <- <-;
                      repeat split; try congruence;
                      intros id Hid; first [ discriminate Hid | now injection Hid as <- ] ]
            | ]);
    contradiction.
Qed.

(** X8: nothing is tried twice.  Within one operation no provider call and no
    log line is repeated. *)
Theorem no_call_is_repeated (o : Operation) (w : World) (evs : list Event) :
  trace (after o w) = trace w ++ evs ->
  NoDup evs.
Proof.
  unfold after.
  destruct (run o w) as [out w'] eqn:Hrun. cbn [fst snd].
  intros Htr.
  destruct o; cbn [run] in Hrun; unfold_run Hrun; events_of Hrun Htr;
    repeat (constructor;
            [ cbn [In]; intros Hin;
              repeat (destruct Hin as [Hin|Hin]; [discriminate Hin|]);
              contradiction
            | ]);
    constructor.
Qed.

(** Looks among the events [l], those of [pre] being passed already, for a
    call on which the goal can be closed. *)
Ltac find_call pre l close :=
  lazymatch l with
  | ?x :: ?l' =>
      first [ lazymatch x with
              | Call ?c ?rq => exists pre, c, rq, l'; close
              end
            | find_call (pre ++ [x]) l' close ]
  end.

(** X10: an operation of a configured driver panics only on a nil pointer
    from the provider: one of its calls was answered without an error and
    with a nil pointer that is dereferenced next, by the operation itself or
    by the client the operation hands it to. *)
Theorem panics_only_on_a_nil_answer (o : Operation) (w : World) :
  reported o w = Panicked ->
  hcloud (drv w) = None \/
  exists (pre : list Event) (c : hcloud.Client) (rq : hcloud.Request) (post : list Event),
    trace (after o w) = trace w ++ pre ++ Call c rq :: post /\
    nil_answer rq (P (trace w ++ pre) c rq) = true.
Proof.
  unfold after, reported.
  destruct (run o w) as [out w'] eqn:Hrun. cbn [fst snd].
  intros Hout.
  destruct o; cbn [run] in Hrun; unfold_run Hrun;
    injection Hrun as <- <-; try discriminate Hout;
    try (left; congruence);
    try (exfalso; congruence);
    right;
    cbn [trace with_trace with_drv];
    rewrite <- ?app_assoc in *; cbn [app] in *;
    match goal with
    | |- exists pre c rq post, trace _ ++ ?l = _ /\ _ =>
        find_call (@nil Event) l
          ltac:(split;
                [ reflexivity
                | cbn [app nil_answer]; rewrite ?app_nil_r;
                  match goal with
                  | Heq : P ?t ?c ?rq = _ |- context [P ?t ?c ?rq] => rewrite Heq
                  end;
                  cbn [fst snd];
                  repeat match goal with
                         | H : ?x = _ |- context [?x] => rewrite H
                         end;
                  reflexivity ])
    end.
Qed.

(** ** Further properties: create *)

(** Looks among the events [l] for the creation call. *)
Ltac find_creation pre l close :=
  lazymatch l with
  | Call ?c (hcloud.Server_Create ?opts) :: ?l' => exists pre, c, opts, l'; close
  | ?x :: ?l' => find_creation (pre ++ [x]) l' close
  end.

(** A create that returns nil has made the creation call, was given a server
    by it, and has bound the driver to that server. *)
Lemma Create_returned_nil (w w' : World) :
  Create w = (Returned None, w') ->
  exists (pre : list Event) (c : hcloud.Client) (opts : hcloud.ServerCreateOpts)
         (post : list Event) (server : hcloud.Server),
    trace w' = trace w ++ pre ++ Call c (hcloud.Server_Create opts) :: post /\
    hcloud.Result_Server (fst (P (trace w ++ pre) c (hcloud.Server_Create opts))) =
      Some server /\
    hcloud (drv w) = Some c /\
    drv w' =
      set_IPAddress (IP_String (hcloud.Server_PublicNet_IPv4_IP server))
        (set_serverId (hcloud.Server_ID server) (drv w)).
Proof.
  intros Hrun. unfold_run Hrun;
    try discriminate Hrun;
    injection Hrun as <-;
    try (exfalso; congruence);
    cbn [trace with_trace with_drv];
    rewrite <- ?app_assoc in *; cbn [app] in *;
    match goal with
    | |- exists pre c opts post server, trace _ ++ ?l = _ /\ _ =>
        find_creation (@nil Event) l
          ltac:(eexists; split; [reflexivity|]; cbn [app]; rewrite ?app_nil_r;
                match goal with
                | Heq : P ?t ?c ?rq = _ |- context [P ?t ?c ?rq] => rewrite Heq
                end;
                cbn [fst]; split; [eassumption|]; split; [congruence | reflexivity])
    end.
Qed.

(** X11: create changes the driver exactly in the runs that return nil.  A
    create that returns an error, panics or hangs leaves every field as it
    was; one that returns nil has bound [serverId] and [IPAddress] to the
    server its creation call returned. *)
Theorem Create_binds_exactly_when_it_returns_nil (w : World) :
  (fst (Create w) <> Returned None -> drv (snd (Create w)) = drv w) /\
  (fst (Create w) = Returned None ->
   exists (pre : list Event) (c : hcloud.Client) (opts : hcloud.ServerCreateOpts)
          (post : list Event) (server : hcloud.Server),
     trace (snd (Create w)) = trace w ++ pre ++ Call c (hcloud.Server_Create opts) :: post /\
     hcloud.Result_Server (fst (P (trace w ++ pre) c (hcloud.Server_Create opts))) =
       Some server /\
     drv (snd (Create w)) =
       set_IPAddress (IP_String (hcloud.Server_PublicNet_IPv4_IP server))
         (set_serverId (hcloud.Server_ID server) (drv w))).
Proof.
  destruct (Create w) as [out w'] eqn:Hrun. cbn [fst snd]. split.
  - intros Hout. revert Hrun. unfold Create, bind.
    pose proof (keeps_Create_resolve w) as Hr.
    destruct (Create_resolve w) as [[[e|opts]| |] w1]; cbn in Hr;
      try (intros [= <- <-]; exact Hr).
    intros Hsub.
    destruct (Create_submit_binds_both opts w1 w' out Hsub) as [Hs|[server [Hnil _]]].
    + now rewrite Hs.
    + contradiction.
  - intros ->.
    destruct (Create_returned_nil w w' Hrun) as (pre & c & opts & post & server & H1 & H2 & _ & H4).
    exists pre, c, opts, post, server. repeat split; assumption.
Qed.

(** X12: a create that returns an error has created nothing: no
    server-creation call was made in the run, and the driver is as it was. *)
Theorem Create_error_means_nothing_was_created (w : World) (e : error) (evs : list Event) :
  fst (Create w) = Returned (Some e) ->
  trace (snd (Create w)) = trace w ++ evs ->
  (forall c opts, ~ In (Call c (hcloud.Server_Create opts)) evs) /\
  drv (snd (Create w)) = drv w.
Proof.
  destruct (Create w) as [out w'] eqn:Hrun. cbn [fst snd].
  intros Hout Htr.
  unfold_run Hrun; events_of Hrun Htr; try discriminate Hout;
    (split; [|reflexivity]);
    intros c' opts Hin; cbn [In] in Hin;
    repeat (destruct Hin as [Hin|Hin]; [discriminate Hin|]);
    contradiction.
Qed.

(** X13: what the server is created from.  In every run of create that
    reaches the creation call the options carry the machine's name and
    whatever the lookups of the server type and of the image returned, a nil
    (nothing found, no error) included; with no datacenter configured they
    carry none, and the same for the location. *)
Theorem Create_options (w w1 : World) (c : hcloud.Client) (opts : hcloud.ServerCreateOpts) :
  hcloud (drv w) = Some c ->
  Create_resolve w = (Returned (inr opts), w1) ->
  let d := drv w in
  let first := Call c (hcloud.ServerType_Get (ServerType d)) in
  hcloud.Opts_Name opts = drivers.MachineName (BaseDriver d) /\
  hcloud.Opts_ServerType opts = fst (P (trace w) c (hcloud.ServerType_Get (ServerType d))) /\
  hcloud.Opts_Image opts = fst (P (trace w ++ [first]) c (hcloud.Image_Get (Image d))) /\
  (Datacenter d = "" -> hcloud.Opts_Datacenter opts = None) /\
  (Location d = "" -> hcloud.Opts_Location opts = None).
Proof.
  intros Hc Hres d first. subst d first.
  unfold_run Hres; try discriminate Hres;
    injection Hres as <- <-;
    repeat match goal with
           | H : Some _ = Some _ |- _ => injection H as ->
           end;
    repeat match goal with
           | Heq : P ?t ?c ?rq = _ |- context [P ?t ?c ?rq] => rewrite Heq
           end;
    cbn;
    repeat split;
    intros E; rewrite E in *; discriminate.
Qed.

(** ** Further properties: one operation after another *)

(** X14: after a create that returned nil, start, stop, restart, kill, remove
    and query-state address the server that was created: each begins by
    looking up, through the same client, the ID of the server the creation
    call returned. *)
Theorem created_server_is_operated_on (o : Operation) (w w' : World) :
  Create w = (Returned None, w') ->
  In o needs_identity ->
  exists (pre : list Event) (c : hcloud.Client) (opts : hcloud.ServerCreateOpts)
         (post : list Event) (server : hcloud.Server),
    trace w' = trace w ++ pre ++ Call c (hcloud.Server_Create opts) :: post /\
    hcloud.Result_Server (fst (P (trace w ++ pre) c (hcloud.Server_Create opts))) =
      Some server /\
    exists rest,
      trace (after o w') =
        trace w' ++ Call c (hcloud.Server_GetByID (hcloud.Server_ID server)) :: rest.
Proof.
  intros Hrun Hin.
  destruct (Create_returned_nil w w' Hrun)
    as (pre & c & opts & post & server & H1 & H2 & H3 & H4).
  exists pre, c, opts, post, server. split; [exact H1|]. split; [exact H2|].
  assert (Hc : hcloud (drv w') = Some c) by (rewrite H4; exact H3).
  assert (Hid : serverId (drv w') = hcloud.Server_ID server) by (rewrite H4; reflexivity).
  clear Hrun H1 H2 H3 H4.
  destruct o; cbn in Hin;
    try (exfalso; repeat (destruct Hin as [Hin|Hin]; [discriminate Hin|]); exact Hin);
    clear Hin; unfold after; cbn [run];
    unfold Start, Stop, Restart, Kill, Remove, GetState;
    begin_lookup w' c Hc; rewrite Hid;
    destruct (P (trace w') c (hcloud.Server_GetByID (hcloud.Server_ID server)))
      as [found [e|]];
    rest_extends.
Qed.

(** Every call of an operation goes through the client the driver holds. *)
Lemma calls_go_through_the_client (o : Operation) (w : World) (evs : list Event)
    (c : hcloud.Client) (rq : hcloud.Request) :
  trace (after o w) = trace w ++ evs ->
  In (Call c rq) evs ->
  hcloud (drv w) = Some c.
Proof.
  unfold after.
  destruct (run o w) as [out w'] eqn:Hrun. cbn [fst snd].
  intros Htr Hin.
  destruct o; cbn [run] in Hrun; unfold_run Hrun; events_of Hrun Htr;
    cbn [In] in Hin;
    repeat (destruct Hin as [Hin|Hin];
            [ first [ discriminate Hin | injection Hin as <- <-; congruence ] | ]);
    contradiction.
Qed.

(** X15: what is configured is what is used.  After a configuration that
    returned nil, every call of every operation goes through the client made
    from the configured token, and create begins by looking up the configured
    server type. *)
Theorem configuration_is_used (flags : string -> string) (w w1 : World) :
  SetConfigFromFlags flags w = (Returned None, w1) ->
  let configured :=
    hcloud.NewClient (flags "hcloud-token") "docker-machine" version_Version in
  (forall o evs c rq,
      trace (after o w1) = trace w1 ++ evs ->
      In (Call c rq) evs ->
      c = configured) /\
  exists rest,
    trace (after DoCreate w1) =
      trace w1 ++ Call configured (hcloud.ServerType_Get (flags "hcloud-type")) :: rest.
Proof.
  intros Hrun configured.
  assert (H1 : hcloud (drv w1) = Some configured /\
               ServerType (drv w1) = flags "hcloud-type").
  { revert Hrun. unfold SetConfigFromFlags.
    destruct (flags "hcloud-token" =? ""); [discriminate|].
    destruct (flags "hcloud-image" =? ""); [discriminate|].
    destruct (flags "hcloud-type" =? ""); [discriminate|].
    intros [= <-]. split; reflexivity. }
  destruct H1 as [Hc Hty]. split.
  - intros o evs c rq Htr Hin.
    pose proof (calls_go_through_the_client o w1 evs c rq Htr Hin) as H.
    congruence.
  - unfold after; cbn [run]. unfold Create, Create_resolve, Create_submit.
    begin_lookup w1 configured Hc. rewrite Hty.
    rest_extends.
Qed.

(** ** Further properties: the address *)

(** X16: what query-address returns.  With an error the string is empty;
    without one the state query-state gave was Running with no error, the
    base driver's [GetIP] gave an address with no error, and the string is
    the URL of that address with port 2376.  Either way the only thing asked
    of the provider is what query-state asks. *)
Theorem GetURL_result (w w' : World) (url : string) (err : option error) :
  GetURL w = (Returned (url, err), w') ->
  w' = snd (GetState w) /\
  (err <> None -> url = "") /\
  (err = None ->
   fst (GetState w) = Returned (state.Running, None) /\
   exists ip,
     GetIP (BaseDriver (drv w)) = (ip, None) /\
     url = ("tcp://" ++ JoinHostPort ip "2376")%string).
Proof.
  unfold GetURL, MustBeRunning. rewrite bind_assoc.
  pose proof (keeps_GetState w) as Hk.
  unfold bind at 1.
  destruct (GetState w) as [[[s e]| |] w1]; cbn [fst snd] in *; try discriminate.
  assert (Hfail : forall e0 : error,
             w1 = w1 /\ (Some e0 <> None -> "" = "") /\
             (Some e0 = None ->
              Returned (s, e) = Returned (state.Running, None) /\
              exists ip,
                GetIP (BaseDriver (drv w)) = (ip, None) /\
                "" = ("tcp://" ++ JoinHostPort ip "2376")%string)).
  { intros e0. split; [reflexivity|]. split; [reflexivity|]. discriminate. }
  destruct e as [e|].
  - intros [= <- <- <-]. apply Hfail.
  - destruct s; cbn; try (intros [= <- <- <-]; apply Hfail).
    unfold bind, ret, BaseDriver_GetIP, this. cbn. rewrite Hk.
    destruct (GetIP (BaseDriver (drv w))) as [ip [e|]]; intros [= <- <- <-].
    + apply Hfail.
    + split; [reflexivity|]. split; [intros Hne; contradiction|].
      intros _. split; [reflexivity|]. exists ip. split; reflexivity.
Qed.

End Operations.

(** ** The statements on the sample cloud

    Each statement above that rests on a hypothesis is applied here to a
    concrete provider and driver, and the runs that contradict the
    specification are evaluated. *)

Local Abbreviation sample_GetState P :=
  (GetState P Sample.running Sample.off Sample.stopping Sample.starting Sample.initializing).

Local Abbreviation sample_GetURL P :=
  (GetURL P Sample.JoinHostPort Sample.GetIP
     Sample.running Sample.off Sample.stopping Sample.starting Sample.initializing).

Local Abbreviation sample_after P :=
  (after P Sample.IP_String Sample.JoinHostPort Sample.GetIP Sample.not_found
     Sample.running Sample.off Sample.stopping Sample.starting Sample.initializing).

Local Abbreviation sample_reported P :=
  (reported P Sample.IP_String Sample.JoinHostPort Sample.GetIP Sample.not_found
     Sample.running Sample.off Sample.stopping Sample.starting Sample.initializing).

Local Abbreviation sample_call rq := (Call Sample.token_client rq).

(** The options create assembles for the sample driver. *)
Local Abbreviation sample_opts :=
  {| hcloud.Opts_Name := "default";
     hcloud.Opts_ServerType := Some Sample.cx11;
     hcloud.Opts_Image := Some Sample.ubuntu;
     hcloud.Opts_Location := None;
     hcloud.Opts_Datacenter := None |}.

Lemma sample_statuses_distinct :
  NoDup [Sample.running; Sample.off; Sample.stopping; Sample.starting; Sample.initializing].
Proof.
  repeat constructor; cbn; intros H;
    repeat (destruct H as [H|H]; [discriminate H|]); exact H.
Defined.

(** C1 on a creation whose action fails: the wait returns the failure,
    create returns nil, and the driver is bound to server 42. *)
Lemma Create_binds_identity_after_failed_wait :
  let P := Sample.cloud (Sample.server 42 Sample.running) None
             (Some (Some Sample.action_failed)) in
  let w := Sample.world Sample.configured in
  let creation := sample_call (hcloud.Server_Create sample_opts) in
  let w1 := trace_after w [sample_call (hcloud.ServerType_Get "cx11");
                           sample_call (hcloud.Image_Get "ubuntu-18.04")] in
  fst (waitOnAction P (Some (Sample.action "create_server")) (trace_after w1 [creation])) =
    Returned (Some Sample.action_failed) /\
  fst (Create P Sample.IP_String w) = Returned None /\
  serverId (drv (snd (Create P Sample.IP_String w))) = 42%Z /\
  drivers.IPAddress (BaseDriver (drv (snd (Create P Sample.IP_String w)))) = "203.0.113.9".
Proof.
  intros P w creation w1.
  exact (Create_binds_identity P Sample.IP_String w w1 Sample.token_client sample_opts
           (Sample.server 42 Sample.running) (Sample.action "create_server")
           None (Some Sample.action_failed) eq_refl eq_refl eq_refl eq_refl).
Defined.

(** C2 on a server the provider reports as Starting, and on one it reports
    as Migrating, a status the switch does not name: the state is Running. *)
Lemma GetState_maps_status_of_starting_server :
  let P status := Sample.cloud (Sample.server 42 status) None (Some None) in
  let w := Sample.world Sample.created in
  let asked := trace_after w [sample_call (hcloud.Server_GetByID 42)] in
  sample_GetState (P Sample.starting) w = (Returned (state.Running, None), asked) /\
  sample_GetState (P Sample.migrating) w = (Returned (state.Running, None), asked).
Proof.
  intros P w asked. split.
  - destruct (GetState_maps_status (P Sample.starting) Sample.running Sample.off
                Sample.stopping Sample.starting Sample.initializing w Sample.token_client
                (Sample.server 42 Sample.starting)
                sample_statuses_distinct eq_refl eq_refl)
      as [s [Hrun [_ [_ [_ [_ [Hstarting _]]]]]]].
    rewrite (Hstarting eq_refl) in Hrun. exact Hrun.
  - destruct (GetState_maps_status (P Sample.migrating) Sample.running Sample.off
                Sample.stopping Sample.starting Sample.initializing w Sample.token_client
                (Sample.server 42 Sample.migrating)
                sample_statuses_distinct eq_refl eq_refl)
      as [s [Hrun [_ [_ [_ [_ [_ [Hother _]]]]]]]].
    rewrite Hother in Hrun; [exact Hrun|].
    cbn. intros H. repeat (destruct H as [H|H]; [discriminate H|]). exact H.
Defined.

(** On a connection lost after the first call: start is refused the
    power-on call and returns that error; the same for create, refused the
    image lookup. *)
Lemma call_failures_are_returned_sample :
  let cloud := Sample.cloud (Sample.server 42 Sample.off) None (Some None) in
  sample_reported (Sample.failing_from 1 cloud) DoStart (Sample.world Sample.created) =
    Returned (Some Sample.connection_refused) /\
  sample_reported (Sample.failing_from 1 cloud) DoCreate (Sample.world Sample.configured) =
    Returned (Some Sample.connection_refused).
Proof.
  intros cloud. split.
  - apply (call_failures_are_returned (Sample.failing_from 1 cloud)
             Sample.IP_String Sample.JoinHostPort Sample.GetIP Sample.not_found
             Sample.running Sample.off Sample.stopping Sample.starting Sample.initializing
             DoStart (Sample.world Sample.created)
             [sample_call (hcloud.Server_GetByID 42)] []
             Sample.token_client
             (hcloud.Server_Poweron (Some (Sample.server 42 Sample.off)))
             Sample.connection_refused); reflexivity.
  - apply (call_failures_are_returned (Sample.failing_from 1 cloud)
             Sample.IP_String Sample.JoinHostPort Sample.GetIP Sample.not_found
             Sample.running Sample.off Sample.stopping Sample.starting Sample.initializing
             DoCreate (Sample.world Sample.configured)
             [sample_call (hcloud.ServerType_Get "cx11")] []
             Sample.token_client
             (hcloud.Image_Get "ubuntu-18.04")
             Sample.connection_refused); reflexivity.
Defined.

(** C3 on a server name that is taken: the creation call reports the error
    with the zero result, and create, configured as in the example scenario,
    returns no error: it panics once the call is back. *)
Lemma Create_panics_when_the_name_is_taken :
  let taken := Sample.cloud (Sample.server 42 Sample.running)
                 (Some Sample.name_taken) (Some None) in
  let w := Sample.world Sample.configured in
  let lookups := [sample_call (hcloud.ServerType_Get "cx11");
                  sample_call (hcloud.Image_Get "ubuntu-18.04")] in
  (forall e' : error, fst (Create taken Sample.IP_String w) <> Returned (Some e')) /\
  Create taken Sample.IP_String w =
    (Panicked,
     {| drv := Sample.configured;
        trace := lookups ++ [sample_call (hcloud.Server_Create sample_opts)] |}).
Proof.
  intros taken w lookups.
  destruct (creation_failure_is_not_returned taken Sample.IP_String w
              (trace_after w lookups) Sample.token_client sample_opts
              {| hcloud.Result_Server := None; hcloud.Result_Action := None |}
              Sample.name_taken eq_refl eq_refl eq_refl) as [Hnone Hpanic].
  split; [exact Hnone | exact (Hpanic eq_refl)].
Defined.

(** C4, amended, on a configured driver that was never created, with the
    connection to the provider gone: remove asks for server 0 and returns
    the error of that lookup. *)
Lemma unset_identity_is_looked_up_by_Remove :
  let P := Sample.failing_from 0
             (Sample.cloud (Sample.server 42 Sample.running) None (Some None)) in
  let w := Sample.world Sample.configured in
  (exists rest,
      trace (sample_after P DoRemove w) = sample_call (hcloud.Server_GetByID 0) :: rest) /\
  sample_reported P DoRemove w = Returned (Some Sample.connection_refused).
Proof.
  intros P w.
  destruct (unset_identity_is_looked_up P Sample.IP_String Sample.JoinHostPort Sample.GetIP
              Sample.not_found Sample.running Sample.off Sample.stopping Sample.starting
              Sample.initializing DoRemove w Sample.token_client)
    as [Hasked Hreturned].
  - cbn. tauto.
  - reflexivity.
  - reflexivity.
  - split; [exact Hasked | exact (Hreturned None Sample.connection_refused eq_refl)].
Defined.

(** C4 as stated fails.  A configured driver that was never created holds
    server ID 0, and the cloud has no such server: the lookup answers nil
    with no error.  Each of the six operations makes that lookup, a provider
    call for a server that is not the driver's, and none of them fails with
    an error: query-state dereferences the nil server, the others hand it to
    their next call, and all six panic. *)
Lemma operations_before_create_do_not_fail :
  let P := Sample.cloud (Sample.server 42 Sample.running) None (Some None) in
  let w := Sample.world Sample.configured in
  let asked := {| drv := Sample.configured;
                  trace := [sample_call (hcloud.Server_GetByID 0)] |} in
  P [] Sample.token_client (hcloud.Server_GetByID 0) = (None, None) /\
  Start P w = (Panicked, asked) /\
  Stop P w = (Panicked, asked) /\
  Restart P w = (Panicked, asked) /\
  Kill P w = (Panicked, asked) /\
  Remove P Sample.not_found w = (Panicked, asked) /\
  sample_GetState P w = (Panicked, asked).
Proof. repeat split; vm_compute; reflexivity. Qed.

(** C5 on a machine that is removed twice: the first remove finds server 42
    and deletes it; the second is told nothing of a missing server (nil, no
    error) and panics at the delete call, where it should have returned
    nil. *)
Lemma Remove_twice_panics :
  let P := Sample.cloud (Sample.server 42 Sample.running) None (Some None) in
  let w := Sample.world Sample.created in
  let first := [sample_call (hcloud.Server_GetByID 42);
                sample_call (hcloud.Server_Delete (Some (Sample.server 42 Sample.running)))] in
  Remove P Sample.not_found w = (Returned None, trace_after w first) /\
  P first Sample.token_client (hcloud.Server_GetByID 42) = (None, None) /\
  Remove P Sample.not_found (trace_after w first) =
    (Panicked, trace_after w (first ++ [sample_call (hcloud.Server_GetByID 42)])).
Proof.
  intros P w first. split; [reflexivity|]. split; [reflexivity|].
  exact (Remove_of_a_missing_server_panics P Sample.not_found (trace_after w first)
           Sample.token_client eq_refl eq_refl).
Defined.

(** C6 on a driver configured with datacenter fsn1-dc8 and location fsn1:
    both are looked up as ubuntu-18.04, nothing is found under that name,
    and the server is created with neither. *)
Lemma Create_looks_up_by_image_sample :
  let P := Sample.cloud (Sample.server 42 Sample.running) None (Some None) in
  let w := Sample.world (set_Location "fsn1" (set_Datacenter "fsn1-dc8" Sample.configured)) in
  let lookups := [sample_call (hcloud.ServerType_Get "cx11");
                  sample_call (hcloud.Image_Get "ubuntu-18.04");
                  sample_call (hcloud.Datacenter_Get "ubuntu-18.04");
                  sample_call (hcloud.Location_Get "ubuntu-18.04")] in
  (Datacenter (drv w) <> "" -> hcloud.Opts_Datacenter sample_opts = None) /\
  (Location (drv w) <> "" -> hcloud.Opts_Location sample_opts = None) /\
  exists rest,
    trace (snd (Create P Sample.IP_String w)) =
      lookups ++ sample_call (hcloud.Server_Create sample_opts) :: rest.
Proof.
  intros P w lookups.
  exact (proj2 (Create_looks_up_by_image P Sample.IP_String w (trace_after w lookups)
                  Sample.token_client sample_opts eq_refl eq_refl)).
Defined.

(** C7 on the options of the example scenario, and on the same without a
    server type. *)
Lemma SetConfigFromFlags_validates_sample :
  SetConfigFromFlags Sample.version Sample.flags (Sample.world Sample.fresh) =
    (Returned None, Sample.world Sample.configured) /\
  exists msg w',
    SetConfigFromFlags Sample.version
      (fun name => if name =? "hcloud-type" then "" else Sample.flags name)
      (Sample.world Sample.fresh) = (Returned (Some (fmt_Errorf msg)), w') /\
    hcloud (drv w') = None /\ trace w' = [].
Proof.
  split.
  - apply (proj2 (SetConfigFromFlags_validates Sample.version Sample.flags
                    (Sample.world Sample.fresh))); discriminate.
  - apply (proj1 (SetConfigFromFlags_validates Sample.version
                    (fun name => if name =? "hcloud-type" then "" else Sample.flags name)
                    (Sample.world Sample.fresh))).
    right; right; reflexivity.
Defined.


(** C9, amended, on the created driver, with the server running and with
    the server off. *)
Lemma GetURL_guards_sample :
  let w := Sample.world Sample.created in
  let asked := trace_after w [sample_call (hcloud.Server_GetByID 42)] in
  sample_GetURL (Sample.cloud (Sample.server 42 Sample.running) None (Some None)) w =
    (Returned ("tcp://203.0.113.9:2376", None), asked) /\
  (exists e,
      sample_GetURL (Sample.cloud (Sample.server 42 Sample.off) None (Some None)) w =
        (Returned ("", Some e), asked)) /\
  GetSSHHostname Sample.GetIP w = (Returned ("203.0.113.9", None), w).
Proof.
  intros w asked. split; [|split].
  - apply (proj1 (GetURL_guards_GetSSHHostname_does_not
                    (Sample.cloud (Sample.server 42 Sample.running) None (Some None))
                    Sample.JoinHostPort Sample.GetIP Sample.running Sample.off
                    Sample.stopping Sample.starting Sample.initializing w))
      with (s := state.Running) (err := None); reflexivity.
  - apply (proj1 (GetURL_guards_GetSSHHostname_does_not
                    (Sample.cloud (Sample.server 42 Sample.off) None (Some None))
                    Sample.JoinHostPort Sample.GetIP Sample.running Sample.off
                    Sample.stopping Sample.starting Sample.initializing w))
      with (s := state.Stopped) (err := None); [reflexivity | left; discriminate].
  - exact (proj2 (GetURL_guards_GetSSHHostname_does_not
                    (Sample.cloud (Sample.server 42 Sample.off) None (Some None))
                    Sample.JoinHostPort Sample.GetIP Sample.running Sample.off
                    Sample.stopping Sample.starting Sample.initializing w)).
Defined.

(** C9 as stated fails.  With the server off the driver reports the state
    Stopped, query-address fails, and query-ssh-hostname still returns the
    cached address with a nil error. *)
Lemma GetSSHHostname_of_a_stopped_machine :
  let P := Sample.cloud (Sample.server 42 Sample.off) None (Some None) in
  let w := Sample.world Sample.created in
  fst (sample_GetState P w) = Returned (state.Stopped, None) /\
  fst (sample_GetURL P w) = Returned ("", Some ErrHostIsNotRunning) /\
  GetSSHHostname Sample.GetIP w = (Returned ("203.0.113.9", None), w).
Proof. repeat split; vm_compute; reflexivity. Qed.

(** ** The further properties on the sample cloud *)

Local Abbreviation sample_run P :=
  (run P Sample.IP_String Sample.JoinHostPort Sample.GetIP Sample.not_found
     Sample.running Sample.off Sample.stopping Sample.starting Sample.initializing).

(** X2 with the token T: the declared defaults give the configured driver
    of the examples. *)
Lemma declared_defaults_configure_sample :
  SetConfigFromFlags Sample.version
      (with_option "hcloud-token" "T" (default_of GetCreateFlags))
      (Sample.world Sample.fresh) =
    (Returned None, Sample.world Sample.configured) /\
  SetConfigFromFlags Sample.version (default_of GetCreateFlags) (Sample.world Sample.fresh) =
    (Returned (Some (required "hcloud-token")), Sample.world Sample.fresh).
Proof.
  apply (declared_defaults_configure Sample.version "T" (Sample.world Sample.fresh)).
  discriminate.
Defined.

(** X3 on the options of the examples without a server type: the image is
    on the driver already. *)
Lemma SetConfigFromFlags_failure_sample :
  let w := Sample.world Sample.fresh in
  ("T" = "" /\ required "hcloud-type" = required "hcloud-token" /\
   Sample.world (set_Image "ubuntu-18.04" Sample.fresh) = w) \/
  ("T" <> "" /\ "ubuntu-18.04" = "" /\ required "hcloud-type" = required "hcloud-image" /\
   Sample.world (set_Image "ubuntu-18.04" Sample.fresh) = w) \/
  ("T" <> "" /\ "ubuntu-18.04" <> "" /\ "" = "" /\
   required "hcloud-type" = required "hcloud-type" /\
   Sample.world (set_Image "ubuntu-18.04" Sample.fresh) =
     with_drv w (set_Image "ubuntu-18.04" (drv w))).
Proof.
  intros w.
  exact (SetConfigFromFlags_failure Sample.version
           (fun name => if name =? "hcloud-type" then "" else Sample.flags name)
           w (Sample.world (set_Image "ubuntu-18.04" Sample.fresh))
           (required "hcloud-type") eq_refl).
Defined.

(** X5 with the connection to the provider gone: the state is Error and the
    error is the lookup's. *)
Lemma GetState_Error_means_error_sample :
  let P := Sample.failing_from 0
             (Sample.cloud (Sample.server 42 Sample.running) None (Some None)) in
  let w := Sample.world Sample.created in
  (state.Error = state.Error <-> Some Sample.connection_refused <> None) /\
  exists c,
    hcloud (drv w) = Some c /\
    trace_after w [sample_call (hcloud.Server_GetByID 42)] = trace_after w [lookup c w] /\
    Some Sample.connection_refused = snd (P [] c (hcloud.Server_GetByID 42)).
Proof.
  intros P w.
  exact (GetState_Error_means_error P Sample.running Sample.off Sample.stopping
           Sample.starting Sample.initializing w
           (trace_after w [sample_call (hcloud.Server_GetByID 42)])
           state.Error (Some Sample.connection_refused) eq_refl).
Defined.

(** X6 on a driver fresh from [NewDriver]. *)
Lemma unconfigured_driver_panics_sample :
  let P := Sample.cloud (Sample.server 42 Sample.running) None (Some None) in
  let w := Sample.world Sample.fresh in
  sample_run P DoCreate w = (Panicked, w) /\
  sample_run P DoRemove w = (Panicked, w) /\
  sample_run P DoGetURL w = (Panicked, w).
Proof.
  intros P w. split; [|split].
  - apply (unconfigured_driver_panics P Sample.IP_String Sample.JoinHostPort Sample.GetIP
             Sample.not_found Sample.running Sample.off Sample.stopping Sample.starting
             Sample.initializing DoCreate w); [reflexivity | discriminate].
  - apply (unconfigured_driver_panics P Sample.IP_String Sample.JoinHostPort Sample.GetIP
             Sample.not_found Sample.running Sample.off Sample.stopping Sample.starting
             Sample.initializing DoRemove w); [reflexivity | discriminate].
  - apply (unconfigured_driver_panics P Sample.IP_String Sample.JoinHostPort Sample.GetIP
             Sample.not_found Sample.running Sample.off Sample.stopping Sample.starting
             Sample.initializing DoGetURL w); [reflexivity | discriminate].
Defined.

(** X7 on the delete call of a remove. *)
Lemma calls_of_an_operation_sample :
  let server := Sample.server 42 Sample.running in
  makes DoRemove (hcloud.Server_Delete (Some server)) = true /\
  hcloud Sample.created = Some Sample.token_client /\
  (forall id, hcloud.Server_Delete (Some server) = hcloud.Server_GetByID id -> id = 42%Z).
Proof.
  intros server.
  apply (calls_of_an_operation (Sample.cloud server None (Some None))
           Sample.IP_String Sample.JoinHostPort Sample.GetIP
           Sample.not_found Sample.running Sample.off Sample.stopping Sample.starting
           Sample.initializing DoRemove (Sample.world Sample.created)
           [sample_call (hcloud.Server_GetByID 42);
            sample_call (hcloud.Server_Delete (Some server))]).
  - reflexivity.
  - right. left. reflexivity.
Defined.

(** X8 on a start that succeeds: five events, all different. *)
Lemma no_call_is_repeated_sample :
  let server := Sample.server 42 Sample.off in
  NoDup [sample_call (hcloud.Server_GetByID 42);
         sample_call (hcloud.Server_Poweron (Some server));
         Log (log_waiting "start_server");
         sample_call (hcloud.Action_WatchProgress (Sample.action "start_server"));
         Log (log_succeeded "start_server")].
Proof.
  intros server.
  apply (no_call_is_repeated (Sample.cloud server None (Some None))
           Sample.IP_String Sample.JoinHostPort Sample.GetIP
           Sample.not_found Sample.running Sample.off Sample.stopping Sample.starting
           Sample.initializing DoStart (Sample.world Sample.created)).
  reflexivity.
Defined.

(** X10 on a create whose creation call fails and gives the zero result. *)
Lemma panics_only_on_a_nil_answer_sample :
  let P := Sample.cloud (Sample.server 42 Sample.running)
             (Some Sample.name_taken) (Some None) in
  let w := Sample.world Sample.configured in
  hcloud (drv w) = None \/
  exists pre c rq post,
    trace (sample_after P DoCreate w) = trace w ++ pre ++ Call c rq :: post /\
    nil_answer rq (P (trace w ++ pre) c rq) = true.
Proof.
  intros P w.
  apply (panics_only_on_a_nil_answer P Sample.IP_String Sample.JoinHostPort Sample.GetIP
           Sample.not_found Sample.running Sample.off Sample.stopping Sample.starting
           Sample.initializing DoCreate w).
  reflexivity.
Defined.

(** X12 on a create that loses the connection after its first lookup. *)
Lemma Create_error_means_nothing_was_created_sample :
  let P := Sample.failing_from 1
             (Sample.cloud (Sample.server 42 Sample.running) None (Some None)) in
  let w := Sample.world Sample.configured in
  let evs := [sample_call (hcloud.ServerType_Get "cx11");
              sample_call (hcloud.Image_Get "ubuntu-18.04")] in
  (forall c opts, ~ In (Call c (hcloud.Server_Create opts)) evs) /\
  drv (snd (Create P Sample.IP_String w)) = drv w.
Proof.
  intros P w evs.
  apply (Create_error_means_nothing_was_created P Sample.IP_String w
           Sample.connection_refused evs); reflexivity.
Defined.

(** X13 on a driver configured with a server type the cloud does not know:
    the lookup gives nil with no error, and the server is created with no
    server type. *)
Lemma Create_options_sample :
  let P := Sample.cloud (Sample.server 42 Sample.running) None (Some None) in
  let w := Sample.world (set_ServerType "cx99" Sample.configured) in
  let c := Sample.token_client in
  let opts := {| hcloud.Opts_Name := "default";
                 hcloud.Opts_ServerType := None;
                 hcloud.Opts_Image := Some Sample.ubuntu;
                 hcloud.Opts_Location := None;
                 hcloud.Opts_Datacenter := None |} in
  hcloud.Opts_Name opts = "default" /\
  hcloud.Opts_ServerType opts = fst (P [] c (hcloud.ServerType_Get "cx99")) /\
  hcloud.Opts_Image opts =
    fst (P [Call c (hcloud.ServerType_Get "cx99")] c (hcloud.Image_Get "ubuntu-18.04")) /\
  (Datacenter (drv w) = "" -> hcloud.Opts_Datacenter opts = None) /\
  (Location (drv w) = "" -> hcloud.Opts_Location opts = None).
Proof.
  intros P w c opts.
  exact (Create_options P w
           (trace_after w [Call c (hcloud.ServerType_Get "cx99");
                           Call c (hcloud.Image_Get "ubuntu-18.04")])
           c opts eq_refl eq_refl).
Defined.

(** X14 on the example scenario: after the create, start looks server 42
    up. *)
Lemma created_server_is_operated_on_sample :
  let P := Sample.cloud (Sample.server 42 Sample.running) None (Some None) in
  let w := Sample.world Sample.configured in
  let w' := snd (Create P Sample.IP_String w) in
  exists pre c opts post server,
    trace w' = trace w ++ pre ++ Call c (hcloud.Server_Create opts) :: post /\
    hcloud.Result_Server (fst (P (trace w ++ pre) c (hcloud.Server_Create opts))) =
      Some server /\
    exists rest,
      trace (sample_after P DoStart w') =
        trace w' ++ Call c (hcloud.Server_GetByID (hcloud.Server_ID server)) :: rest.
Proof.
  intros P w w'.
  apply (created_server_is_operated_on P Sample.IP_String Sample.JoinHostPort Sample.GetIP
           Sample.not_found Sample.running Sample.off Sample.stopping Sample.starting
           Sample.initializing DoStart w w').
  - reflexivity.
  - left. reflexivity.
Defined.

(** X15 on the options of the example scenario. *)
Lemma configuration_is_used_sample :
  let P := Sample.cloud (Sample.server 42 Sample.running) None (Some None) in
  let w1 := Sample.world Sample.configured in
  (forall o evs c rq,
      trace (sample_after P o w1) = trace w1 ++ evs ->
      In (Call c rq) evs ->
      c = Sample.token_client) /\
  exists rest,
    trace (sample_after P DoCreate w1) =
      trace w1 ++ sample_call (hcloud.ServerType_Get "cx11") :: rest.
Proof.
  intros P w1.
  exact (configuration_is_used P Sample.IP_String Sample.JoinHostPort Sample.GetIP
           Sample.version Sample.not_found Sample.running Sample.off Sample.stopping
           Sample.starting Sample.initializing Sample.flags
           (Sample.world Sample.fresh) w1 eq_refl).
Defined.

(** X16 on the created driver with the server running. *)
Lemma GetURL_result_sample :
  let P := Sample.cloud (Sample.server 42 Sample.running) None (Some None) in
  let w := Sample.world Sample.created in
  let asked := trace_after w [sample_call (hcloud.Server_GetByID 42)] in
  asked = snd (sample_GetState P w) /\
  (@None error <> None -> "tcp://203.0.113.9:2376" = "") /\
  (@None error = None ->
   fst (sample_GetState P w) = Returned (state.Running, None) /\
   exists ip,
     Sample.GetIP (BaseDriver (drv w)) = (ip, None) /\
     "tcp://203.0.113.9:2376" = ("tcp://" ++ Sample.JoinHostPort ip "2376")%string).
Proof.
  intros P w asked.
  exact (GetURL_result P Sample.JoinHostPort Sample.GetIP Sample.running Sample.off
           Sample.stopping Sample.starting Sample.initializing w asked
           "tcp://203.0.113.9:2376" None eq_refl).
Defined.
